(** * Mission behaviours of the state-machine example

    A shallow embedding of the two behaviours of [state_machine_example]:
    the leaf [CalculateFibonacciSeries] and the composite
    [CalculateTwoFibonacciSeriesSequentially], together with the parts of the
    [state_machine] engine they are written against.

    Conventions.
    - A C++ [int] is a [Z]; the behaviours only store, copy and print the
      order, so no arithmetic (and no wrap-around) occurs on it.
    - [std::optional<T>] and nullable pointers are [option].
    - A member function that mutates its object returns the new object.
    - Everything a behaviour does to the outside (ROS parameter server, action
      client, report sink) is appended to the event log of a [World]. *)

From stdpp Require Import gmap strings list fin_maps.
From Stdlib Require Import ZArith DecimalString.

Local Open Scope Z_scope.

(** ** Names, types and outcomes *)

Abbreviation StateName := string (only parsing).
Abbreviation StateType := string (only parsing).
Abbreviation Outcome := string (only parsing).

(** [state_machine::outcomes]: the three outcomes every state has. *)
Module outcomes.
Definition success : Outcome := "success".
Definition preemption : Outcome := "preemption".
Definition failure : Outcome := "failure".
End outcomes.

(** [std::to_string(int)]. *)
Definition to_string (z : Z) : string := NilZero.string_of_int (Z.to_int z).

(** ** Results of a C++ call

    A call returns, throws, or has undefined behaviour (here: only ever the
    dereference of a null pointer). *)

Inductive Effect (A : Type) : Type :=
| Returns (a : A)
| Throws (what : string)
| Undefined (why : string).

Arguments Returns {A} a.
Arguments Throws {A} what.
Arguments Undefined {A} why.

Definition bindE {A B : Type} (e : Effect A) (k : A -> Effect B) : Effect B :=
  match e with
  | Returns a => k a
  | Throws what => Throws what
  | Undefined why => Undefined why
  end.

Notation "'let*' x := e 'in' k" := (bindE e (fun x => k))
  (at level 10, x pattern, e at level 200, k at level 200, only parsing).

(** [p->...] on a possibly null pointer. *)
Definition deref {A : Type} (p : option A) : Effect A :=
  match p with
  | Some a => Returns a
  | None => Undefined "null pointer dereference"
  end.

(** ** Settings *)

(** Modelled from the spec: the [state_machine::Settings] store is absent
    from the sources; the spec gives it as an ordered sequence of parameters
    [{name, kind-tag, value}] with a variant value.  [addParameter] appends,
    [parameterIsRegistered] and [getParameter] look a name up, and
    [as<int>] reads an integer value. *)
Inductive Value : Type :=
| IntValue (z : Z)
| StringValue (s : string).

(** [state_machine::Parameter] (the bare name is a keyword here). *)
Record SettingsParameter : Type := mkParameter {
  paramName : string;
  paramKind : string;
  paramValue : Value
}.

Abbreviation Settings := (list SettingsParameter) (only parsing).

Definition addParameter (p : SettingsParameter) (settings : Settings) : Settings :=
  settings ++ [p].

Definition hasName (name : string) (p : SettingsParameter) : bool :=
  String.eqb (paramName p) name.

Definition parameterIsRegistered (name : string) (settings : Settings) : bool :=
  existsb (hasName name) settings.

Definition getParameter (name : string) (settings : Settings) : Effect SettingsParameter :=
  match find (hasName name) settings with
  | Some p => Returns p
  | None => Throws ("parameter '" +:+ name +:+ "' is not registered")
  end.

Definition as_int (v : Value) : Effect Z :=
  match v with
  | IntValue z => Returns z
  | StringValue _ => Throws "value is not an int"
  end.

(** ** Inconsistencies and progress *)

Abbreviation Inconsistencies := (list string) (only parsing).



(** ** The outside world

    What a behaviour reaches through its context and its ROS node handle: the
    ROS parameter server, the action client and the report sink.  Every
    interaction is logged, oldest first. *)

Inductive Level : Type := DEBUG | INFO | WARN | ERROR.

(** [report::Entry]. *)
Record Entry : Type := mkEntry {
  entryState : StateName;
  entryLevel : Level;
  entryMessage : string;
  entryValue : option Z
}.

Inductive Event : Type :=
| ParamRead (key : string)          (* param_io::getParam *)
| ClientCreated (action : string)   (* std::make_shared<ActionClient> *)
| GoalSent (order : Z)              (* actionClient_->execute(goal) *)
| CancelSent                        (* actionClient_->cancelExecution() *)
| ClientReleased                    (* actionClient_.reset() *)
| Reported (e : Entry).             (* addSimpleEntry / addEntry *)

Record World : Type := mkWorld {
  rosParams : gmap string string;
  events : list Event
}.

Definition emit (e : Event) (w : World) : World :=
  mkWorld (rosParams w) (events w ++ [e]).

(** [param_io::getParam(nh, key, var)]: [var] is overwritten only when the
    parameter exists on the server. *)
Definition getParam (key : string) (var : string) (w : World) : string * World :=
  (default var (rosParams w !! key), emit (ParamRead key) w).

(** [addSimpleEntry(state, level, message)]. *)
Definition addSimpleEntry (state : StateName) (level : Level) (message : string)
    (w : World) : World :=
  emit (Reported (mkEntry state level message None)) w.

Definition isGoalSent (e : Event) : bool :=
  match e with GoalSent _ => true | _ => false end.

Definition isReported (e : Event) : bool :=
  match e with Reported _ => true | _ => false end.



(** Number of goals sent so far. *)
Definition goalCount (w : World) : nat :=
  length (List.filter isGoalSent (events w)).

(** ** The action client

    [state_machine_ros] is not part of the sources: the type of the value
    returned by [ActionClient::execute] and the three functions the leaf
    applies to it are an interface. *)

Class ActionGoalOutcomeOps (T : Type) : Type := {
  actionGoalSucceeded : T -> bool;
  actionGoalCancelled : T -> bool;
  toString : T -> string
}.

(** Modelled from the spec: the terminal results of a delegated action are
    succeeded, cancelled and faulted, and a timeout. *)
Inductive ActionGoalOutcome : Type :=
| succeeded
| cancelled
| faulted
| timeout.

#[export] Instance specOutcomeOps : ActionGoalOutcomeOps ActionGoalOutcome := {
  actionGoalSucceeded o := match o with succeeded => true | _ => false end;
  actionGoalCancelled o := match o with cancelled => true | _ => false end;
  toString o :=
    match o with
    | succeeded => "succeeded"
    | cancelled => "cancelled"
    | faulted => "faulted"
    | timeout => "timeout"
    end
}.

(** [actionlib_tutorials::FibonacciFeedback::sequence]. *)
Abbreviation Feedback := (list Z) (only parsing).

(** What happens while one call of [ActionClient::execute] blocks: the
    feedback messages delivered to the callback, whether some other thread
    calls [onPreemptionRequest] meanwhile, the terminal outcome and the
    sequence of the result message. *)
Record Flight (T : Type) : Type := mkFlight {
  feedbacks : list Feedback;
  preemptionRequested : bool;
  terminal : T;
  resultSequence : list Z
}.

Arguments mkFlight {T} feedbacks preemptionRequested terminal resultSequence.
Arguments feedbacks {T} f.
Arguments preemptionRequested {T} f.
Arguments terminal {T} f.
Arguments resultSequence {T} f.

(** The handle held in [actionClient_]. *)
Record ActionClient : Type := mkActionClient {
  clientAction : string
}.

(** ** The feedback mutex

    [actionFeedback_] is guarded by the [std::shared_mutex]
    [actionFeedbackMutex_].  A critical section is the list of its atomic
    steps; run alone, only its writes matter. *)

Inductive LockMode : Type :=
| SharedLock     (* std::shared_lock *)
| UniqueLock.    (* std::unique_lock *)

Inductive Op : Type :=
| Acquire (mode : LockMode)
| WriteFeedback (v : option Feedback)
| ReadFeedback
| Release (mode : LockMode).

Definition runOp (op : Op) (fb : option Feedback) : option Feedback :=
  match op with
  | WriteFeedback v => v
  | Acquire _ | ReadFeedback | Release _ => fb
  end.

Definition runOps (ops : list Op) (fb : option Feedback) : option Feedback :=
  fold_left (fun acc op => runOp op acc) ops fb.

(** [runPreExecution], lines 61-66. *)
Definition resetFeedbackSection : list Op :=
  [Acquire SharedLock; WriteFeedback None; Release SharedLock].

(** The feedback callback set in [runPreExecution], lines 69-72. *)
Definition feedbackCbSection (feedback : Feedback) : list Op :=
  [Acquire UniqueLock; WriteFeedback (Some feedback); Release UniqueLock].

(** [getProgressImpl]: the lock is held until the function returns. *)
Definition getProgressSection : list Op :=
  [Acquire SharedLock; ReadFeedback; Release SharedLock].

(** ** The leaf behaviour [CalculateFibonacciSeries] *)

Record CalculateFibonacciSeries : Type := mkLeaf {
  name_ : StateName;                  (* State::getName() *)
  nestedName_ : string;               (* State::getNestedName().toString() *)
  outcomes_ : list Outcome;           (* set by setOutcomes *)
  nominalOutcome_ : option Outcome;   (* set by setNominalOutcome *)
  actionClient_ : option ActionClient;
  action_ : string;
  order_ : option Z;
  actionFeedback_ : option Feedback
}.

Definition leafType : StateType :=
  "state_machine_example::CalculateFibonacciSeries".

(** The object right after its empty constructor: [action_{"/fibonacci"}],
    everything else empty or null. *)
Definition newLeaf (name nested : string) : CalculateFibonacciSeries :=
  mkLeaf name nested [] None None "/fibonacci" None None.

Definition setOutcomes (os : list Outcome) (s : CalculateFibonacciSeries) :=
  mkLeaf (name_ s) (nestedName_ s) os (nominalOutcome_ s) (actionClient_ s)
         (action_ s) (order_ s) (actionFeedback_ s).

Definition setNominalOutcome (o : Outcome) (s : CalculateFibonacciSeries) :=
  mkLeaf (name_ s) (nestedName_ s) (outcomes_ s) (Some o) (actionClient_ s)
         (action_ s) (order_ s) (actionFeedback_ s).

Definition setActionClient (c : option ActionClient) (s : CalculateFibonacciSeries) :=
  mkLeaf (name_ s) (nestedName_ s) (outcomes_ s) (nominalOutcome_ s) c
         (action_ s) (order_ s) (actionFeedback_ s).

Definition setAction (a : string) (s : CalculateFibonacciSeries) :=
  mkLeaf (name_ s) (nestedName_ s) (outcomes_ s) (nominalOutcome_ s)
         (actionClient_ s) a (order_ s) (actionFeedback_ s).

Definition setActionFeedback (fb : option Feedback) (s : CalculateFibonacciSeries) :=
  mkLeaf (name_ s) (nestedName_ s) (outcomes_ s) (nominalOutcome_ s)
         (actionClient_ s) (action_ s) (order_ s) fb.

Module Leaf.

Definition setOrder (order : Z) (s : CalculateFibonacciSeries) :=
  mkLeaf (name_ s) (nestedName_ s) (outcomes_ s) (nominalOutcome_ s)
         (actionClient_ s) (action_ s) (Some order) (actionFeedback_ s).

Definition getOrder (s : CalculateFibonacciSeries) : option Z := order_ s.

Definition actionParamKey : string :=
  "/state_machine_example/calculate_fibonacci_series/action".

Definition constructImpl (s : CalculateFibonacciSeries) (w : World)
    : bool * CalculateFibonacciSeries * World :=
  let s := setOutcomes [outcomes.success] s in
  let s := setNominalOutcome outcomes.success s in
  let '(a, w) := getParam actionParamKey (action_ s) w in
  (true, setAction a s, w).

Definition saveSettingsImpl (settings : Settings) (s : CalculateFibonacciSeries)
    : Settings :=
  addParameter (mkParameter "order" "int" (IntValue (default 0 (order_ s)))) settings.

Definition loadSettingsImpl (settings : Settings) (s : CalculateFibonacciSeries)
    : Effect (bool * CalculateFibonacciSeries) :=
  if parameterIsRegistered "order" settings then
    let* p := getParameter "order" settings in
    let* order := as_int (paramValue p) in
    Returns (true, setOrder order s)
  else Returns (true, s).

Definition unsetMessage (s : CalculateFibonacciSeries) : string :=
  "The order of '" +:+ nestedName_ s +:+ "' has not been set.".

Definition getInconsistenciesImpl (s : CalculateFibonacciSeries) : Inconsistencies :=
  match order_ s with
  | None => [unsetMessage s]
  | Some _ => []
  end.

Definition runPreExecution (s : CalculateFibonacciSeries) (w : World)
    : CalculateFibonacciSeries * World :=
  let s := setActionFeedback (runOps resetFeedbackSection (actionFeedback_ s)) s in
  (setActionClient (Some (mkActionClient (action_ s))) s,
   emit (ClientCreated (action_ s)) w).

(** The callback given to [setFeedbackCb]. *)
Definition feedbackCb (s : CalculateFibonacciSeries) (feedback : Feedback) :=
  setActionFeedback (runOps (feedbackCbSection feedback) (actionFeedback_ s)) s.

Definition onPreemptionRequest (s : CalculateFibonacciSeries) (w : World) : World :=
  match actionClient_ s with
  | Some _ => emit CancelSent w
  | None => w
  end.

Definition runPostExecution (s : CalculateFibonacciSeries) (w : World)
    : CalculateFibonacciSeries * World :=
  (setActionClient None s, emit ClientReleased w).


(** [result->sequence.empty() ? 0 : result->sequence.back()]. *)
Definition lastOrZero (sequence : list Z) : Z := default 0 (last sequence).

Section Execution.

Context {T : Type} `{ActionGoalOutcomeOps T}.

(** The action server and the other threads: what happens during the
    n-th goal sent in this world. *)
Variable server : nat -> Flight T.

(** [actionClient_->execute(goal)]: sends the goal and blocks; meanwhile
    the feedback callback runs for every feedback message and, when a
    preemption is requested, [onPreemptionRequest] runs. *)
Definition actionExecute (order : Z) (s : CalculateFibonacciSeries) (w : World)
    : T * list Z * CalculateFibonacciSeries * World :=
  let flight := server (goalCount w) in
  let w := emit (GoalSent order) w in
  let s := fold_left feedbackCb (feedbacks flight) s in
  let w := if preemptionRequested flight then onPreemptionRequest s w else w in
  (terminal flight, resultSequence flight, s, w).

Definition runMidExecution (s : CalculateFibonacciSeries) (w : World)
    : Effect (Outcome * CalculateFibonacciSeries * World) :=
  match order_ s with
  | None =>
      Returns (outcomes.failure, s,
               addSimpleEntry (name_ s) ERROR
                 "Failed to calculate Fibonacci series: The order has not been set." w)
  | Some order =>
      let w := addSimpleEntry (name_ s) DEBUG
                 ("Calculating Fibonacci series of order '" +:+ to_string order +:+ "' ...") w in
      let* _ := deref (actionClient_ s) in
      let '(actionGoalOutcome, sequence, s, w) := actionExecute order s w in
      if actionGoalSucceeded actionGoalOutcome then
        let entry := mkEntry (name_ s) INFO
                       ("Successfully calculated Fibonacci series of order '"
                          +:+ to_string order +:+ "'.")
                       (Some (lastOrZero sequence)) in
        Returns (outcomes.success, s, emit (Reported entry) w)
      else if actionGoalCancelled actionGoalOutcome then
        Returns (outcomes.preemption, s,
                 addSimpleEntry (name_ s) DEBUG
                   ("Calculating Fibonacci series of order '" +:+ to_string order
                      +:+ "' was cancelled: " +:+ toString actionGoalOutcome) w)
      else
        Returns (outcomes.failure, s,
                 addSimpleEntry (name_ s) ERROR
                   ("Failed to calculate Fibonacci series of order '" +:+ to_string order
                      +:+ "': " +:+ toString actionGoalOutcome) w)
  end.

(** Modelled from the spec: [State::execute] is absent from the sources;
    the spec gives it as pre-execution, mid-execution, post-execution,
    the last on every exit path, returning the outcome of
    mid-execution. *)
Definition execute (s : CalculateFibonacciSeries) (w : World)
    : Effect (Outcome * CalculateFibonacciSeries * World) :=
  let '(s, w) := runPreExecution s w in
  let* (outcome, s, w) := runMidExecution s w in
  let '(s, w) := runPostExecution s w in
  Returns (outcome, s, w).

End Execution.

(** Modelled from the spec: the public [saveSettings], [loadSettings],
    [getInconsistencies] and [getProgress] of the absent [State] base class
    call the hooks above; [saveSettings] starts from empty settings. *)
Definition saveSettings (s : CalculateFibonacciSeries) : Settings :=
  saveSettingsImpl [] s.

(** Modelled from the spec: [State::loadSettings] calls its hook. *)
Definition loadSettings (settings : Settings) (s : CalculateFibonacciSeries)
    : Effect (bool * CalculateFibonacciSeries) :=
  loadSettingsImpl settings s.

(** Modelled from the spec: [State::getInconsistencies] calls its hook. *)
Definition getInconsistencies (s : CalculateFibonacciSeries) : Inconsistencies :=
  getInconsistenciesImpl s.


End Leaf.

(** ** The composite engine *)

(** Modelled from the spec: the [state_machine::StateMachine] base class is
    absent from the sources.  The spec gives it as a set of named children
    with a per-child transition table from outcomes to a sibling or to a
    terminal outcome, one default initial child, and a restart flag. *)
Inductive Target : Type :=
| ToState (name : StateName)
| ToOutcome (outcome : Outcome).

Section Engine.

Context {Child : Type}.

Variable getName : Child -> StateName.
Variable executeChild : Child -> World -> Effect (Outcome * Child * World).

(** Modelled from the spec: the data of a composite, see above; the active
    child is kept for an execution that does not restart. *)
Record StateMachine : Type := mkStateMachine {
  machineName : StateName;
  machineOutcomes : list Outcome;
  restartOnExecution : bool;
  states : gmap string Child;
  transitions : gmap string (gmap string Target);
  defaultInitialState : option StateName;
  activeState : option StateName
}.

Definition newStateMachine (name : StateName) : StateMachine :=
  mkStateMachine name [] true ∅ ∅ None None.

Definition setMachineOutcomes (os : list Outcome) (m : StateMachine) :=
  mkStateMachine (machineName m) os (restartOnExecution m) (states m)
                 (transitions m) (defaultInitialState m) (activeState m).

Definition setRestartOnExecution (b : bool) (m : StateMachine) :=
  mkStateMachine (machineName m) (machineOutcomes m) b (states m)
                 (transitions m) (defaultInitialState m) (activeState m).

Definition setDefaultInitialState (name : StateName) (m : StateMachine) :=
  mkStateMachine (machineName m) (machineOutcomes m) (restartOnExecution m)
                 (states m) (transitions m) (Some name) (activeState m).

Definition setActiveState (name : StateName) (m : StateMachine) :=
  mkStateMachine (machineName m) (machineOutcomes m) (restartOnExecution m)
                 (states m) (transitions m) (defaultInitialState m) (Some name).

(** Write a child back after a call through its pointer changed it. *)
Definition storeState (name : StateName) (child : Child) (m : StateMachine) :=
  mkStateMachine (machineName m) (machineOutcomes m) (restartOnExecution m)
                 (<[name := child]> (states m)) (transitions m)
                 (defaultInitialState m) (activeState m).

Definition addState (child : Child) (table : list (Outcome * Target))
    (m : StateMachine) :=
  mkStateMachine (machineName m) (machineOutcomes m) (restartOnExecution m)
                 (<[getName child := child]> (states m))
                 (<[getName child := list_to_map table]> (transitions m))
                 (defaultInitialState m) (activeState m).

(** Modelled from the spec: [getState(name)], the child of that name, or a
    null pointer when there is none. *)
Definition getState (name : StateName) (m : StateMachine) : option Child :=
  states m !! name.

Definition transition (current : StateName) (outcome : Outcome) (m : StateMachine)
    : option Target :=
  transitions m !! current ≫= (λ table, table !! outcome).

Definition fatal (m : StateMachine) (message : string) (w : World) : World :=
  addSimpleEntry (machineName m) ERROR message w.

(** Modelled from the spec: the loop of [StateMachine::execute].  It runs
    the current child, looks the outcome up in the table of that child,
    moves to the sibling named there or returns the terminal outcome, and
    treats a structural defect (no entry, no such child) as a fatal failure
    with a report entry.  The children run so far are collected in [ran];
    [fuel] bounds the number of turns. *)
Fixpoint run (fuel : nat) (m : StateMachine) (current : StateName) (w : World)
    (ran : list StateName)
    : option (Effect (Outcome * StateMachine * World * list StateName)) :=
  match fuel with
  | O => None
  | S fuel =>
      let m := setActiveState current m in
      match getState current m with
      | None =>
          Some (Returns (outcomes.failure, m,
                         fatal m ("No state '" +:+ current +:+ "'.") w, ran))
      | Some child =>
          match executeChild child w with
          | Returns (outcome, child, w) =>
              let m := storeState current child m in
              let ran := ran ++ [current] in
              match transition current outcome m with
              | Some (ToState next) => run fuel m next w ran
              | Some (ToOutcome terminalOutcome) =>
                  Some (Returns (terminalOutcome, m, w, ran))
              | None =>
                  Some (Returns (outcomes.failure, m,
                                 fatal m ("No transition for outcome '" +:+ outcome
                                            +:+ "' of state '" +:+ current +:+ "'.") w,
                                 ran))
              end
          | Throws what => Some (Throws what)
          | Undefined why => Some (Undefined why)
          end
      end
  end.

(** Modelled from the spec: the child an execution starts at, the default
    initial one when the composite restarts on execution, else the one that
    was active last. *)
Definition initialState (m : StateMachine) : option StateName :=
  if restartOnExecution m then defaultInitialState m
  else match activeState m with
       | Some name => Some name
       | None => defaultInitialState m
       end.

(** Modelled from the spec: [StateMachine::execute]. *)
Definition executeMachine (fuel : nat) (m : StateMachine) (w : World)
    : option (Effect (Outcome * StateMachine * World * list StateName)) :=
  match initialState m with
  | Some name => run fuel m name w []
  | None => Some (Returns (outcomes.failure, m, fatal m "No initial state." w, []))
  end.

End Engine.

Arguments StateMachine Child : clear implicits.

(** ** Children of a composite

    Behind a [StateBase] pointer sits the leaf of this package or a state of
    some other concrete type, of which only its type, its name and what its
    [execute] does to the world are known. *)

Inductive StateBase : Type :=
| FibonacciState (s : CalculateFibonacciSeries)
| OtherState (type : StateType) (name : StateName)
             (behaviour : World -> Outcome * World).

Definition stateName (c : StateBase) : StateName :=
  match c with
  | FibonacciState s => name_ s
  | OtherState _ name _ => name
  end.


(** [dynamic_cast<CalculateFibonacciSeries*>(p)]: null for a null pointer and
    for an object of another type. *)
Definition dynamic_cast (p : option StateBase) : option CalculateFibonacciSeries :=
  match p with
  | Some (FibonacciState s) => Some s
  | Some (OtherState _ _ _) | None => None
  end.

Definition executeState {T : Type} `{ActionGoalOutcomeOps T} (server : nat -> Flight T)
    (c : StateBase) (w : World) : Effect (Outcome * StateBase * World) :=
  match c with
  | FibonacciState s =>
      let* (outcome, s, w) := Leaf.execute server s w in
      Returns (outcome, FibonacciState s, w)
  | OtherState type name behaviour =>
      let '(outcome, w) := behaviour w in
      Returns (outcome, OtherState type name behaviour, w)
  end.

(** ** The factory, typed form *)

(** Modelled from the spec: [state_machine::Factory] is absent from the
    sources.  [createState<Type>(name)] builds an object with the empty
    constructor, names it, runs its [constructImpl] hook and yields no
    instance when the hook returns false. *)
Definition createLeaf (name : StateName) (w : World)
    : option CalculateFibonacciSeries * World :=
  let '(ok, s, w) := Leaf.constructImpl (newLeaf name name) w in
  (if ok then Some s else None, w).

(** ** The composite behaviour [CalculateTwoFibonacciSeriesSequentially] *)

Abbreviation CalculateTwoFibonacciSeriesSequentially :=
  (StateMachine StateBase) (only parsing).

Definition compositeType : StateType :=
  "state_machine_example::CalculateTwoFibonacciSeriesSequentially".

Module Sequential.

Definition name1_ : StateName := "CalculateFibonacciSeries1".
Definition name2_ : StateName := "CalculateFibonacciSeries2".

Definition setOrder (order : Z) (m : CalculateTwoFibonacciSeriesSequentially)
    : Effect CalculateTwoFibonacciSeriesSequentially :=
  let* s1 := deref (dynamic_cast (getState name1_ m)) in
  let m := storeState name1_ (FibonacciState (Leaf.setOrder order s1)) m in
  let* s2 := deref (dynamic_cast (getState name2_ m)) in
  Returns (storeState name2_ (FibonacciState (Leaf.setOrder order s2)) m).

Definition getOrder (m : CalculateTwoFibonacciSeriesSequentially)
    : Effect (option Z) :=
  let* s1 := deref (dynamic_cast (getState name1_ m)) in
  Returns (Leaf.getOrder s1).

(** The two transition tables given to [addState]. *)
Definition table1 : list (Outcome * Target) :=
  [(outcomes.success, ToState name2_);
   (outcomes.preemption, ToOutcome outcomes.preemption);
   (outcomes.failure, ToOutcome outcomes.failure)].

Definition table2 : list (Outcome * Target) :=
  [(outcomes.success, ToOutcome outcomes.success);
   (outcomes.preemption, ToOutcome outcomes.preemption);
   (outcomes.failure, ToOutcome outcomes.failure)].

Definition constructImpl (m : CalculateTwoFibonacciSeriesSequentially) (w : World)
    : bool * CalculateTwoFibonacciSeriesSequentially * World :=
  let m := setMachineOutcomes [outcomes.success] m in
  let m := setRestartOnExecution true m in
  let '(state1, w) := createLeaf name1_ w in
  match state1 with
  | None => (false, m, w)
  | Some state1 =>
      let '(state2, w) := createLeaf name2_ w in
      match state2 with
      | None => (false, m, w)
      | Some state2 =>
          let m := addState stateName (FibonacciState state1) table1 m in
          let m := addState stateName (FibonacciState state2) table2 m in
          let m := setDefaultInitialState name1_ m in
          (true, m, w)
      end
  end.

Definition saveSettingsImpl (settings : Settings)
    (m : CalculateTwoFibonacciSeriesSequentially) : Effect Settings :=
  let* order := getOrder m in
  match order with
  | Some value => Returns (addParameter (mkParameter "order" "int" (IntValue value)) settings)
  | None => Returns settings
  end.

Definition loadSettingsImpl (settings : Settings)
    (m : CalculateTwoFibonacciSeriesSequentially)
    : Effect (bool * CalculateTwoFibonacciSeriesSequentially) :=
  if parameterIsRegistered "order" settings then
    let* p := getParameter "order" settings in
    let* order := as_int (paramValue p) in
    let* m := setOrder order m in
    Returns (true, m)
  else Returns (true, m).

(** Modelled from the spec: the public wrappers of the absent base class,
    as for the leaf. *)
Definition saveSettings (m : CalculateTwoFibonacciSeriesSequentially)
    : Effect Settings :=
  saveSettingsImpl [] m.

(** Modelled from the spec: [loadSettings] calls its hook. *)
Definition loadSettings (settings : Settings)
    (m : CalculateTwoFibonacciSeriesSequentially)
    : Effect (bool * CalculateTwoFibonacciSeriesSequentially) :=
  loadSettingsImpl settings m.

(** Modelled from the spec: [execute] of the composite is the engine run on
    its children. *)
Definition execute {T : Type} `{ActionGoalOutcomeOps T} (server : nat -> Flight T)
    (fuel : nat) (m : CalculateTwoFibonacciSeriesSequentially) (w : World) :=
  executeMachine (executeState server) fuel m w.

End Sequential.

(** Modelled from the spec:
    [createState<CalculateTwoFibonacciSeriesSequentially>(name)], as for the
    leaf. *)
Definition createSequential (name : StateName) (w : World)
    : option CalculateTwoFibonacciSeriesSequentially * World :=
  let '(ok, m, w) := Sequential.constructImpl (newStateMachine name) w in
  (if ok then Some m else None, w).

(** ** The factory, by type name *)

(** What [Factory::createState(type, name)] hands out: a pointer to one of
    the two behaviours of this package. *)
Inductive StateInstance : Type :=
| LeafInstance (s : CalculateFibonacciSeries)
| MachineInstance (m : CalculateTwoFibonacciSeriesSequentially).

Definition getType (i : StateInstance) : StateType :=
  match i with
  | LeafInstance _ => leafType
  | MachineInstance _ => compositeType
  end.

Definition instanceName (i : StateInstance) : StateName :=
  match i with
  | LeafInstance s => name_ s
  | MachineInstance m => machineName m
  end.

Abbreviation Constructor :=
  (string -> World -> option StateInstance * World) (only parsing).

Definition constructLeaf : Constructor :=
  fun name w => let '(s, w) := createLeaf name w in (LeafInstance <$> s, w).

Definition constructSequential : Constructor :=
  fun name w => let '(m, w) := createSequential name w in (MachineInstance <$> m, w).

(** Modelled from the spec: the registry of the factory.  The registered
    plugins are the two types of this package, under the names
    [STATE_MACHINE_SPECIALIZE_TYPE_TO_STRING] gives them. *)
Definition plugins : gmap string Constructor :=
  <[compositeType := constructSequential]> (<[leafType := constructLeaf]> ∅).

(** Modelled from the spec: [Factory::createState(type, name)] looks the
    constructor registered under [type] up and builds the instance; an
    unregistered type yields no instance. *)
Definition createState (type : StateType) (name : StateName) (w : World)
    : option StateInstance * World :=
  match plugins !! type with
  | Some construct => construct name w
  | None => (None, w)
  end.

(** ** Threads on the feedback mutex

    The critical sections of several threads run interleaved, one atomic
    step at a time.  [acquire] yields nothing when the calling thread has to
    wait. *)

Record SharedMutex : Type := mkMutex {
  sharedHolders : nat;
  exclusiveHeld : bool
}.

Definition unlocked : SharedMutex := mkMutex 0 false.

Definition acquire (mode : LockMode) (mu : SharedMutex) : option SharedMutex :=
  match mode with
  | SharedLock =>
      if exclusiveHeld mu then None
      else Some (mkMutex (S (sharedHolders mu)) false)
  | UniqueLock =>
      if exclusiveHeld mu then None
      else match sharedHolders mu with
           | O => Some (mkMutex 0 true)
           | S _ => None
           end
  end.

Definition release (mode : LockMode) (mu : SharedMutex) : SharedMutex :=
  match mode with
  | SharedLock => mkMutex (pred (sharedHolders mu)) (exclusiveHeld mu)
  | UniqueLock => mkMutex (sharedHolders mu) false
  end.

Record Config : Type := mkConfig {
  mutex : SharedMutex;
  feedback : option Feedback;
  threads : list (list Op)
}.

Definition start (sections : list (list Op)) (fb : option Feedback) : Config :=
  mkConfig unlocked fb sections.

(** Thread [i] takes its next step. *)
Definition stepThread (i : nat) (c : Config) : option Config :=
  match threads c !! i with
  | Some (op :: rest) =>
      let ts := <[i := rest]> (threads c) in
      match op with
      | Acquire mode =>
          match acquire mode (mutex c) with
          | Some mu => Some (mkConfig mu (feedback c) ts)
          | None => None
          end
      | Release mode => Some (mkConfig (release mode (mutex c)) (feedback c) ts)
      | WriteFeedback v => Some (mkConfig (mutex c) v ts)
      | ReadFeedback => Some (mkConfig (mutex c) (feedback c) ts)
      end
  | Some [] | None => None
  end.

Fixpoint runSchedule (schedule : list nat) (c : Config) : option Config :=
  match schedule with
  | [] => Some c
  | i :: schedule =>
      match stepThread i c with
      | Some c => runSchedule schedule c
      | None => None
      end
  end.

Definition isAccess (op : Op) : bool :=
  match op with
  | WriteFeedback _ | ReadFeedback => true
  | Acquire _ | Release _ => false
  end.

Definition isWrite (op : Op) : bool :=
  match op with
  | WriteFeedback _ => true
  | Acquire _ | ReadFeedback | Release _ => false
  end.

(** Two threads about to touch [actionFeedback_], one of them writing. *)
Definition conflicting (t u : list Op) : bool :=
  match t, u with
  | a :: _, b :: _ => isAccess a && isAccess b && (isWrite a || isWrite b)
  | _, _ => false
  end.

Fixpoint racy (ts : list (list Op)) : bool :=
  match ts with
  | [] => false
  | t :: ts => existsb (conflicting t) ts || racy ts
  end.

(** Some interleaving of at most [fuel] steps reaches a racy configuration. *)
Fixpoint raceReachable (fuel : nat) (c : Config) : bool :=
  racy (threads c) ||
  match fuel with
  | O => false
  | S fuel =>
      existsb (fun i => match stepThread i c with
                        | Some c => raceReachable fuel c
                        | None => false
                        end)
              (seq 0 (length (threads c)))
  end.

(** ** Well-formed composites and sample inputs *)

(** Both children are present and are leaves of this package, as
    [constructImpl] leaves them. *)
Definition hasFibonacciChildren (m : CalculateTwoFibonacciSeriesSequentially) : Prop :=
  exists s1 s2,
    getState Sequential.name1_ m = Some (FibonacciState s1) /\
    getState Sequential.name2_ m = Some (FibonacciState s2).

Definition emptyWorld : World := mkWorld ∅ [].

(** A world whose action server treats every goal the same way. *)
Definition always {T : Type} (flight : Flight T) : nat -> Flight T :=
  fun _ => flight.

(** A flight without feedback and without preemption request. *)
Definition quiet (result : ActionGoalOutcome) (sequence : list Z)
    : Flight ActionGoalOutcome :=
  mkFlight [] false result sequence.

(** A flight during which a preemption is requested. *)
Definition preempted (result : ActionGoalOutcome) : Flight ActionGoalOutcome :=
  mkFlight [[0; 1]; [0; 1; 1]] true result [].

Definition sampleLeaf : CalculateFibonacciSeries :=
  mkLeaf "MyState" "MyState" [outcomes.success] (Some outcomes.success) None
         "/fibonacci" None None.

Definition sampleMachine : CalculateTwoFibonacciSeriesSequentially :=
  (Sequential.constructImpl (newStateMachine "MyState") emptyWorld).1.2.

Definition sampleWorld : World :=
  (Sequential.constructImpl (newStateMachine "MyState") emptyWorld).2.





(** The sample leaf with order 5, and the same in the middle of an
    execution, after [runPreExecution]. *)
Definition configuredLeaf : CalculateFibonacciSeries :=
  Leaf.setOrder 5 sampleLeaf.

Definition runningLeaf : CalculateFibonacciSeries :=
  (Leaf.runPreExecution configuredLeaf emptyWorld).1.


(** The outcome the three-way branch of [runMidExecution] maps a terminal
    action result to, and the level of the report entry that goes with it. *)
Definition mapped {T : Type} `{ActionGoalOutcomeOps T} (result : T) : Outcome :=
  if actionGoalSucceeded result then outcomes.success
  else if actionGoalCancelled result then outcomes.preemption
  else outcomes.failure.

Definition mappedLevel {T : Type} `{ActionGoalOutcomeOps T} (result : T) : Level :=
  if actionGoalSucceeded result then INFO
  else if actionGoalCancelled result then DEBUG
  else ERROR.


(** Reading one branch off a statement about a mid-execution: [H] proves
    that the mid-execution returns, with the event and goal counts and the
    three cases of the outcome. *)
Ltac mid_execution_by H :=
  let outcome := fresh "outcome" in
  let s' := fresh "s'" in
  let w' := fresh "w'" in
  let Hmid := fresh "Hmid" in
  let Hcount := fresh "Hcount" in
  let Hs := fresh "Hs" in
  let Hc := fresh "Hc" in
  let Hf := fresh "Hf" in
  destruct H as (outcome & s' & w' & ? & ? & Hmid & _ & Hcount & Hs & Hc & Hf);
  first [ destruct (Hs eq_refl) as [-> _]
        | destruct (Hc eq_refl eq_refl) as [-> _]
        | destruct (Hf eq_refl eq_refl) as [-> _] ];
  exists s', w'; split; [exact Hmid | exact Hcount].

(** A composite wired as [constructImpl] wires it: the two transition
    tables, the first child as default initial state, restart on execution. *)
Definition sequentiallyWired {Child : Type} (m : StateMachine Child) : Prop :=
  transitions m !! Sequential.name1_ = Some (list_to_map Sequential.table1) /\
  transitions m !! Sequential.name2_ = Some (list_to_map Sequential.table2) /\
  defaultInitialState m = Some Sequential.name1_ /\
  restartOnExecution m = true.

(** An action server under which the first goal succeeds and the second
    one, were it sent, would too; and one under which the first goal fails. *)
Definition succeedingServer : nat -> Flight ActionGoalOutcome :=
  always (quiet succeeded [0; 1; 1; 2; 3; 5]).

Definition failingServer : nat -> Flight ActionGoalOutcome :=
  fun n => match n with
           | O => quiet faulted []
           | S _ => quiet succeeded [0; 1; 1; 2; 3; 5]
           end.

(** The sample composite with order 5 in both children. *)
Definition configuredMachine : CalculateTwoFibonacciSeriesSequentially :=
  match Sequential.setOrder 5 sampleMachine with
  | Returns m => m
  | Throws _ | Undefined _ => sampleMachine
  end.


(** ** The example executable

    [main] of [calculate_fibonacci_series.cpp]: build the leaf through the
    factory, set the order to 5, validate, execute.  The exit code does not
    depend on the outcome of the execution.  [ros::init], the spinner and
    the console log lines are left out: they reach neither the state nor
    the parameter server, action client or report sink. *)

Inductive ExitCode : Type := EXIT_SUCCESS | EXIT_FAILURE.

Definition main {T : Type} `{ActionGoalOutcomeOps T} (server : nat -> Flight T)
    (w : World) : Effect (ExitCode * World) :=
  let '(state, w) := createLeaf "CalculateFibonacciSeries" w in
  match state with
  | None => Returns (EXIT_FAILURE, w)
  | Some state =>
      let state := Leaf.setOrder 5 state in
      match Leaf.getInconsistencies state with
      | _ :: _ => Returns (EXIT_FAILURE, w)
      | [] =>
          let* (outcome, state, w) := Leaf.execute server state w in
          Returns (EXIT_SUCCESS, w)
      end
  end.

(** ** Vocabulary of the further properties *)

(** One of the three outcomes every state has. *)
Definition canonical (o : Outcome) : Prop :=
  o = outcomes.success \/ o = outcomes.preemption \/ o = outcomes.failure.

(** Two leaves that differ at most in their action client and feedback. *)
Definition sameConfiguration (s s' : CalculateFibonacciSeries) : Prop :=
  name_ s' = name_ s /\ nestedName_ s' = nestedName_ s /\
  outcomes_ s' = outcomes_ s /\ nominalOutcome_ s' = nominalOutcome_ s /\
  action_ s' = action_ s /\ order_ s' = order_ s.

(** Two leaves that differ at most in their order. *)
Definition sameButOrder (s s' : CalculateFibonacciSeries) : Prop :=
  name_ s' = name_ s /\ nestedName_ s' = nestedName_ s /\
  outcomes_ s' = outcomes_ s /\ nominalOutcome_ s' = nominalOutcome_ s /\
  actionClient_ s' = actionClient_ s /\ action_ s' = action_ s /\
  actionFeedback_ s' = actionFeedback_ s.

(** Two composites that differ at most in their children. *)
Definition sameWiring {Child : Type} (m m' : StateMachine Child) : Prop :=
  machineName m' = machineName m /\ machineOutcomes m' = machineOutcomes m /\
  restartOnExecution m' = restartOnExecution m /\
  transitions m' = transitions m /\
  defaultInitialState m' = defaultInitialState m.

(** A leaf that holds stale feedback and a client, as in the middle of an
    earlier execution, and settings without an order. *)
Definition staleLeaf : CalculateFibonacciSeries :=
  mkLeaf "MyState" "MyState" [outcomes.success] (Some outcomes.success)
         (Some (mkActionClient "/fibonacci")) "/fibonacci" (Some 7) (Some [0; 1; 1; 2]).

Definition otherSettings : Settings :=
  [mkParameter "timeout" "int" (IntValue 30)].


(** A child as [constructImpl] builds it, a composite whose children
    disagree on the order, and two more action servers. *)
Definition sampleChild (name : StateName) : CalculateFibonacciSeries :=
  mkLeaf name name [outcomes.success] (Some outcomes.success) None "/fibonacci"
         None None.

Definition disagreeingMachine : CalculateTwoFibonacciSeriesSequentially :=
  storeState Sequential.name2_
    (FibonacciState (Leaf.setOrder 8 (sampleChild Sequential.name2_)))
    (storeState Sequential.name1_
       (FibonacciState (Leaf.setOrder 3 (sampleChild Sequential.name1_)))
       sampleMachine).

Definition cancellingServer : nat -> Flight ActionGoalOutcome :=
  always (preempted cancelled).

Definition secondFailsServer : nat -> Flight ActionGoalOutcome :=
  fun n => match n with
           | O => quiet succeeded [0; 1; 1; 2; 3; 5]
           | S _ => quiet timeout []
           end.


(** * Properties *)

(** ** Settings and validation of the leaf *)

Lemma parameterIsRegistered_saved (s : CalculateFibonacciSeries) :
  parameterIsRegistered "order" (Leaf.saveSettings s) = true.
Proof. reflexivity. Qed.

Lemma load_saved_leaf (s s2 : CalculateFibonacciSeries) :
  Leaf.loadSettings (Leaf.saveSettings s) s2
  = Returns (true, Leaf.setOrder (default 0 (order_ s)) s2).
Proof. reflexivity. Qed.

Lemma load_order_parameter (value : Z) (s : CalculateFibonacciSeries) :
  Leaf.loadSettings [mkParameter "order" "int" (IntValue value)] s
  = Returns (true, Leaf.setOrder value s).
Proof. reflexivity. Qed.

(** A load that finds an order parameter leaves the order set. *)
Lemma load_registered_sets_order (settings : Settings) (s s' : CalculateFibonacciSeries) (ok : bool) :
  parameterIsRegistered "order" settings = true ->
  Leaf.loadSettings settings s = Returns (ok, s') ->
  exists value, order_ s' = Some value.
Proof.
  unfold Leaf.loadSettings, Leaf.loadSettingsImpl. intros -> Hload.
  destruct (getParameter "order" settings) as [p| |]; simpl in Hload; try discriminate.
  destruct (as_int (paramValue p)) as [z| |]; simpl in Hload; try discriminate.
  injection Hload as _ <-. by exists z.
Qed.

Lemma createLeaf_spec (name : StateName) (w : World) :
  createLeaf name w
  = (Some (mkLeaf name name [outcomes.success] (Some outcomes.success) None
                  (default "/fibonacci" (rosParams w !! Leaf.actionParamKey)) None None),
     emit (ParamRead Leaf.actionParamKey) w).
Proof. reflexivity. Qed.

Lemma createLeaf_unset (name : StateName) (w : World) :
  exists s w', createLeaf name w = (Some s, w') /\ order_ s = None /\ actionClient_ s = None.
Proof. rewrite createLeaf_spec. eauto. Qed.

(** ** Composite: typed access to the children *)

Lemma setOrder_children (order : Z) (m : CalculateTwoFibonacciSeriesSequentially)
    (s1 s2 : CalculateFibonacciSeries) :
  getState Sequential.name1_ m = Some (FibonacciState s1) ->
  getState Sequential.name2_ m = Some (FibonacciState s2) ->
  Sequential.setOrder order m
  = Returns (storeState Sequential.name2_ (FibonacciState (Leaf.setOrder order s2))
               (storeState Sequential.name1_ (FibonacciState (Leaf.setOrder order s1)) m)).
Proof.
  intros H1 H2. unfold Sequential.setOrder. rewrite H1. simpl.
  unfold getState in *. simpl. rewrite lookup_insert_ne by done. by rewrite H2.
Qed.

Lemma getState_setOrder_1 (order : Z) (m : CalculateTwoFibonacciSeriesSequentially)
    (s1 s2 : CalculateFibonacciSeries) :
  getState Sequential.name1_
    (storeState Sequential.name2_ (FibonacciState (Leaf.setOrder order s2))
       (storeState Sequential.name1_ (FibonacciState (Leaf.setOrder order s1)) m))
  = Some (FibonacciState (Leaf.setOrder order s1)).
Proof.
  unfold getState. simpl. rewrite lookup_insert_ne by done. by rewrite lookup_insert_eq.
Qed.

Lemma getState_setOrder_2 (order : Z) (m : CalculateTwoFibonacciSeriesSequentially)
    (s1 s2 : CalculateFibonacciSeries) :
  getState Sequential.name2_
    (storeState Sequential.name2_ (FibonacciState (Leaf.setOrder order s2))
       (storeState Sequential.name1_ (FibonacciState (Leaf.setOrder order s1)) m))
  = Some (FibonacciState (Leaf.setOrder order s2)).
Proof. unfold getState. simpl. by rewrite lookup_insert_eq. Qed.

Lemma setOrder_getOrder (order : Z) (m : CalculateTwoFibonacciSeriesSequentially) :
  hasFibonacciChildren m ->
  exists m', Sequential.setOrder order m = Returns m' /\
             Sequential.getOrder m' = Returns (Some order) /\
             hasFibonacciChildren m'.
Proof.
  intros (s1 & s2 & H1 & H2). eexists. split; [by apply setOrder_children|].
  split.
  - unfold Sequential.getOrder. by rewrite getState_setOrder_1.
  - exists (Leaf.setOrder order s1), (Leaf.setOrder order s2).
    by rewrite getState_setOrder_1, getState_setOrder_2.
Qed.

Lemma constructed_hasFibonacciChildren (name : StateName) (w : World) :
  exists m w', createSequential name w = (Some m, w') /\ hasFibonacciChildren m.
Proof.
  unfold createSequential, Sequential.constructImpl. rewrite !createLeaf_spec.
  eexists _, _. split; [reflexivity|].
  eexists _, _. unfold getState, addState, setDefaultInitialState. simpl. split.
  - rewrite lookup_insert_ne by done. by rewrite lookup_insert_eq.
  - by rewrite lookup_insert_eq.
Qed.

Lemma sampleMachine_hasFibonacciChildren : hasFibonacciChildren sampleMachine.
Proof. eexists _, _. split; reflexivity. Qed.

(** C1.  Settings round trip.  For every integer [v] (in particular every
    C++ [int]): after [setOrder(v)] on one instance, a second instance of the
    same type that loads what the first one saves has [getOrder() == v].
    This holds for two leaves [s1], [s2] and for two composites [m1], [m2]
    that hold their two Fibonacci children. *)
Theorem settings_round_trip (v : Z)
    (s1 s2 : CalculateFibonacciSeries)
    (m1 m2 : CalculateTwoFibonacciSeriesSequentially)
    (H1 : hasFibonacciChildren m1) (H2 : hasFibonacciChildren m2) :
  (exists s2',
      Leaf.loadSettings (Leaf.saveSettings (Leaf.setOrder v s1)) s2 = Returns (true, s2') /\
      Leaf.getOrder s2' = Some v)
  /\
  (exists m1' saved m2',
      Sequential.setOrder v m1 = Returns m1' /\
      Sequential.saveSettings m1' = Returns saved /\
      Sequential.loadSettings saved m2 = Returns (true, m2') /\
      Sequential.getOrder m2' = Returns (Some v)).
Proof.
  split.
  - eexists. split; [apply load_saved_leaf|]. reflexivity.
  - destruct (setOrder_getOrder v m1 H1) as (m1' & Hset & Hget & _).
    destruct (setOrder_getOrder v m2 H2) as (m2' & Hset2 & Hget2 & _).
    exists m1', [mkParameter "order" "int" (IntValue v)], m2'.
    split; [done|]. split.
    + unfold Sequential.saveSettings, Sequential.saveSettingsImpl. by rewrite Hget.
    + split; [|done].
      unfold Sequential.loadSettings, Sequential.loadSettingsImpl. simpl.
      by rewrite Hset2.
Qed.

Lemma settings_round_trip_witness :
  (exists s2',
      Leaf.loadSettings (Leaf.saveSettings (Leaf.setOrder 5 sampleLeaf)) sampleLeaf
      = Returns (true, s2') /\
      Leaf.getOrder s2' = Some 5)
  /\
  (exists m1' saved m2',
      Sequential.setOrder 5 sampleMachine = Returns m1' /\
      Sequential.saveSettings m1' = Returns saved /\
      Sequential.loadSettings saved sampleMachine = Returns (true, m2') /\
      Sequential.getOrder m2' = Returns (Some 5)).
Proof.
  apply (settings_round_trip 5 sampleLeaf sampleLeaf sampleMachine sampleMachine);
    eexists _, _; split; reflexivity.
Defined.

(** C7.  Validation of the unconfigured leaf.  On a leaf whose order has not
    been set, [getInconsistencies()] is a one-element list whose message
    names the missing order; after [setOrder], and after a [loadSettings]
    that finds an order parameter, the list is empty. *)
Theorem unconfigured_leaf_inconsistent (s : CalculateFibonacciSeries)
    (Hunset : order_ s = None) :
  Leaf.getInconsistencies s
  = ["The order of '" +:+ nestedName_ s +:+ "' has not been set."]
  /\ (forall v, Leaf.getInconsistencies (Leaf.setOrder v s) = [])
  /\ (forall settings ok s',
         parameterIsRegistered "order" settings = true ->
         Leaf.loadSettings settings s = Returns (ok, s') ->
         Leaf.getInconsistencies s' = []).
Proof.
  split; [|split].
  - unfold Leaf.getInconsistencies, Leaf.getInconsistenciesImpl. by rewrite Hunset.
  - reflexivity.
  - intros settings ok s' Hreg Hload.
    destruct (load_registered_sets_order settings s s' ok Hreg Hload) as [value Hvalue].
    unfold Leaf.getInconsistencies, Leaf.getInconsistenciesImpl. by rewrite Hvalue.
Qed.

Lemma unconfigured_leaf_inconsistent_witness :
  order_ sampleLeaf = None
  /\ Leaf.getInconsistencies sampleLeaf = ["The order of 'MyState' has not been set."]
  /\ (forall v, Leaf.getInconsistencies (Leaf.setOrder v sampleLeaf) = [])
  /\ (forall settings ok s',
         parameterIsRegistered "order" settings = true ->
         Leaf.loadSettings settings sampleLeaf = Returns (ok, s') ->
         Leaf.getInconsistencies s' = []).
Proof.
  split; [reflexivity|].
  apply (unconfigured_leaf_inconsistent sampleLeaf). reflexivity.
Defined.

(** C10.  A leaf whose order is unset still saves an "order" parameter, with
    value 0; a leaf that loads these settings has [getOrder()] equal to 0
    (not empty) and no inconsistencies. *)
Theorem unset_order_saved_as_zero (s s2 : CalculateFibonacciSeries)
    (Hunset : order_ s = None) :
  Leaf.saveSettings s = [mkParameter "order" "int" (IntValue 0)]
  /\ exists s2',
       Leaf.loadSettings (Leaf.saveSettings s) s2 = Returns (true, s2') /\
       Leaf.getOrder s2' = Some 0 /\
       Leaf.getInconsistencies s2' = [].
Proof.
  split.
  - unfold Leaf.saveSettings, Leaf.saveSettingsImpl. by rewrite Hunset.
  - eexists. split; [apply load_saved_leaf|]. rewrite Hunset. split; reflexivity.
Qed.

Lemma unset_order_saved_as_zero_witness :
  order_ sampleLeaf = None
  /\ Leaf.getInconsistencies sampleLeaf <> []
  /\ Leaf.saveSettings sampleLeaf = [mkParameter "order" "int" (IntValue 0)]
  /\ exists s2',
       Leaf.loadSettings (Leaf.saveSettings sampleLeaf) sampleLeaf = Returns (true, s2') /\
       Leaf.getOrder s2' = Some 0 /\
       Leaf.getInconsistencies s2' = [].
Proof.
  split; [reflexivity|]. split; [discriminate|].
  apply (unset_order_saved_as_zero sampleLeaf sampleLeaf). reflexivity.
Defined.

(** ** Execution of the leaf *)

Lemma goalCount_emit (e : Event) (w : World) :
  goalCount (emit e w) = if isGoalSent e then S (goalCount w) else goalCount w.
Proof.
  unfold goalCount, emit. simpl. rewrite List.filter_app, length_app. simpl.
  destruct (isGoalSent e); simpl; lia.
Qed.

Lemma goalCount_addSimpleEntry (name : StateName) (level : Level) (message : string)
    (w : World) :
  goalCount (addSimpleEntry name level message w) = goalCount w.
Proof. unfold addSimpleEntry. by rewrite goalCount_emit. Qed.

(** The feedback callback only touches the feedback. *)
Lemma feedbackCb_frame (fbs : list Feedback) (s : CalculateFibonacciSeries) :
  let s' := fold_left Leaf.feedbackCb fbs s in
  name_ s' = name_ s /\ order_ s' = order_ s /\
  actionClient_ s' = actionClient_ s /\ action_ s' = action_ s.
Proof.
  revert s. induction fbs as [|fb fbs IH]; intros s; simpl; [done|].
  destruct (IH (Leaf.feedbackCb s fb)) as (-> & -> & -> & ->). done.
Qed.

Section LeafExecution.

Context {T : Type} `{ActionGoalOutcomeOps T}.
Variable server : nat -> Flight T.

Lemma runMidExecution_spec (s : CalculateFibonacciSeries) (w : World)
    (order : Z) (client : ActionClient) :
  order_ s = Some order ->
  actionClient_ s = Some client ->
  let flight := server (goalCount w) in
  exists started final,
    Leaf.runMidExecution server s w
    = Returns (mapped (terminal flight),
               fold_left Leaf.feedbackCb (feedbacks flight) s,
               mkWorld (rosParams w)
                 (events w ++ [Reported started; GoalSent order]
                    ++ (if preemptionRequested flight then [CancelSent] else [])
                    ++ [Reported final]))
    /\ entryLevel final = mappedLevel (terminal flight).
Proof.
  intros Horder Hclient flight.
  destruct (feedbackCb_frame (feedbacks flight) s) as (Hname & _ & Hc & _).
  unfold Leaf.runMidExecution, Leaf.actionExecute.
  rewrite Horder, Hclient. simpl.
  rewrite goalCount_addSimpleEntry. fold flight.
  unfold Leaf.onPreemptionRequest. rewrite Hc, Hclient.
  unfold mapped, mappedLevel.
  destruct (preemptionRequested flight);
    destruct (actionGoalSucceeded (terminal flight));
    [| destruct (actionGoalCancelled (terminal flight))
     | | destruct (actionGoalCancelled (terminal flight))];
    eexists _, _;
    (split; [unfold addSimpleEntry, emit; simpl; rewrite <- ?app_assoc; reflexivity
            | reflexivity]).
Qed.


(** C3.  External action outcome mapping.  A mid-execution of the leaf with
    its order set (and its action client created by the pre-execution)
    reports that it starts, sends exactly one goal to the action client and
    waits for the terminal result of that goal; a succeeded result gives
    outcome success, a cancelled result gives preemption, every other
    terminal result gives failure, and in each case one report entry is
    added last (of level INFO, DEBUG and ERROR respectively). *)
Theorem external_action_outcome_mapping (s : CalculateFibonacciSeries) (w : World)
    (order : Z) (client : ActionClient)
    (Horder : order_ s = Some order) (Hclient : actionClient_ s = Some client) :
  let flight := server (goalCount w) in
  let result := terminal flight in
  exists outcome s' w' started final,
    Leaf.runMidExecution server s w = Returns (outcome, s', w') /\
    events w' = events w ++ [Reported started; GoalSent order]
                  ++ (if preemptionRequested flight then [CancelSent] else [])
                  ++ [Reported final] /\
    goalCount w' = S (goalCount w) /\
    (actionGoalSucceeded result = true ->
       outcome = outcomes.success /\ entryLevel final = INFO) /\
    (actionGoalSucceeded result = false -> actionGoalCancelled result = true ->
       outcome = outcomes.preemption /\ entryLevel final = DEBUG) /\
    (actionGoalSucceeded result = false -> actionGoalCancelled result = false ->
       outcome = outcomes.failure /\ entryLevel final = ERROR).
Proof.
  intros flight result.
  destruct (runMidExecution_spec s w order client Horder Hclient)
    as (started & final & Hmid & Hlevel).
  fold flight in Hmid, Hlevel. fold result in Hmid, Hlevel.
  eexists _, _, _, started, final. split; [exact Hmid|]. split; [reflexivity|].
  split.
  - unfold goalCount. simpl. rewrite !List.filter_app, !length_app. simpl.
    destruct (preemptionRequested flight); simpl; lia.
  - unfold mapped in *. unfold mappedLevel in Hlevel.
    repeat split; intros; destruct (actionGoalSucceeded result);
      try destruct (actionGoalCancelled result); congruence.
Qed.


End LeafExecution.

Lemma external_action_outcome_mapping_witness :
  order_ runningLeaf = Some 5 /\
  actionClient_ runningLeaf = Some (mkActionClient "/fibonacci") /\
  (exists s' w',
      Leaf.runMidExecution (always (quiet succeeded [0; 1; 1])) runningLeaf emptyWorld
      = Returns (outcomes.success, s', w') /\ goalCount w' = 1%nat) /\
  (exists s' w',
      Leaf.runMidExecution (always (quiet cancelled [])) runningLeaf emptyWorld
      = Returns (outcomes.preemption, s', w') /\ goalCount w' = 1%nat) /\
  (exists s' w',
      Leaf.runMidExecution (always (quiet faulted [])) runningLeaf emptyWorld
      = Returns (outcomes.failure, s', w') /\ goalCount w' = 1%nat) /\
  (exists s' w',
      Leaf.runMidExecution (always (quiet timeout [])) runningLeaf emptyWorld
      = Returns (outcomes.failure, s', w') /\ goalCount w' = 1%nat).
Proof.
  split; [reflexivity|]. split; [reflexivity|].
  split; [|split; [|split]].
  - mid_execution_by (external_action_outcome_mapping (always (quiet succeeded [0; 1; 1])) runningLeaf
                         emptyWorld 5 (mkActionClient "/fibonacci") eq_refl eq_refl).
  - mid_execution_by (external_action_outcome_mapping (always (quiet cancelled [])) runningLeaf
                         emptyWorld 5 (mkActionClient "/fibonacci") eq_refl eq_refl).
  - mid_execution_by (external_action_outcome_mapping (always (quiet faulted [])) runningLeaf
                         emptyWorld 5 (mkActionClient "/fibonacci") eq_refl eq_refl).
  - mid_execution_by (external_action_outcome_mapping (always (quiet timeout [])) runningLeaf
                         emptyWorld 5 (mkActionClient "/fibonacci") eq_refl eq_refl).
Defined.



(** ** Execution of the composite *)

Section Composition.

Context {Child : Type}.
Variable executeChild : Child -> World -> Effect (Outcome * Child * World).

Lemma table1_success :
  (list_to_map Sequential.table1 : gmap string Target) !! outcomes.success
  = Some (ToState Sequential.name2_).
Proof. reflexivity. Qed.

Lemma table1_failure :
  (list_to_map Sequential.table1 : gmap string Target) !! outcomes.failure
  = Some (ToOutcome outcomes.failure).
Proof. reflexivity. Qed.

Lemma table2_success :
  (list_to_map Sequential.table2 : gmap string Target) !! outcomes.success
  = Some (ToOutcome outcomes.success).
Proof. reflexivity. Qed.

(** One turn of the engine's loop on a child that is present and returns. *)
Lemma run_child (fuel : nat) (m : StateMachine Child) (current : StateName)
    (w w' : World) (ran : list StateName) (child child' : Child) (outcome : Outcome) :
  getState current m = Some child ->
  executeChild child w = Returns (outcome, child', w') ->
  run executeChild (S fuel) m current w ran
  = let m' := storeState current child' (setActiveState current m) in
    match transition current outcome m with
    | Some (ToState next) => run executeChild fuel m' next w' (ran ++ [current])
    | Some (ToOutcome terminalOutcome) =>
        Some (Returns (terminalOutcome, m', w', ran ++ [current]))
    | None =>
        Some (Returns (outcomes.failure, m',
                       fatal m' ("No transition for outcome '" +:+ outcome
                                   +:+ "' of state '" +:+ current +:+ "'.") w',
                       ran ++ [current]))
    end.
Proof.
  intros Hchild Hexec. cbn [run].
  change (getState current (setActiveState current m)) with (getState current m).
  rewrite Hchild, Hexec. reflexivity.
Qed.

(** C2.  Sequential composition.  For a composite wired with the two
    transition tables of [constructImpl] and the first child as default
    initial state: when the first child returns success and the second one
    then returns success, [execute()] returns success having run exactly
    the first and then the second child, once each; when the first child
    returns failure, [execute()] returns failure having run the first
    child only.  Any fuel of at least two (one) turns gives the result. *)
Theorem sequential_composition (m : StateMachine Child) (child1 child2 : Child)
    (w : World)
    (Hwired : sequentiallyWired m)
    (Hchild1 : getState Sequential.name1_ m = Some child1)
    (Hchild2 : getState Sequential.name2_ m = Some child2) :
  (forall child1' w1 child2' w2,
      executeChild child1 w = Returns (outcomes.success, child1', w1) ->
      executeChild child2 w1 = Returns (outcomes.success, child2', w2) ->
      forall fuel, exists m',
        executeMachine executeChild (S (S fuel)) m w
        = Some (Returns (outcomes.success, m', w2,
                         [Sequential.name1_; Sequential.name2_])))
  /\
  (forall child1' w1,
      executeChild child1 w = Returns (outcomes.failure, child1', w1) ->
      forall fuel, exists m',
        executeMachine executeChild (S fuel) m w
        = Some (Returns (outcomes.failure, m', w1, [Sequential.name1_]))).
Proof.
  destruct Hwired as (Ht1 & Ht2 & Hdefault & Hrestart).
  assert (Hinit : initialState m = Some Sequential.name1_)
    by (unfold initialState; by rewrite Hrestart).
  split.
  - intros child1' w1 child2' w2 Hexec1 Hexec2 fuel.
    unfold executeMachine. rewrite Hinit.
    rewrite (run_child _ _ _ _ _ _ _ _ _ Hchild1 Hexec1).
    unfold transition at 1. rewrite Ht1. cbn [mbind option_bind].
    rewrite table1_success. cbn zeta.
    set (m1 := storeState _ _ _).
    assert (Hchild2' : getState Sequential.name2_ m1 = Some child2).
    { unfold m1, getState, storeState. cbn [states].
      rewrite lookup_insert_ne by done. exact Hchild2. }
    rewrite (run_child _ _ _ _ _ _ _ _ _ Hchild2' Hexec2).
    unfold transition. change (transitions m1) with (transitions m).
    rewrite Ht2. cbn [mbind option_bind]. rewrite table2_success.
    eexists. reflexivity.
  - intros child1' w1 Hexec1 fuel.
    unfold executeMachine. rewrite Hinit.
    rewrite (run_child _ _ _ _ _ _ _ _ _ Hchild1 Hexec1).
    unfold transition. rewrite Ht1. cbn [mbind option_bind].
    rewrite table1_failure. eexists. reflexivity.
Qed.

End Composition.

Lemma sequential_composition_witness :
  sequentiallyWired configuredMachine /\
  (exists m' w',
      Sequential.execute succeedingServer 2 configuredMachine sampleWorld
      = Some (Returns (outcomes.success, m', w',
                       [Sequential.name1_; Sequential.name2_])) /\
      goalCount w' = 2%nat) /\
  (exists m' w',
      Sequential.execute failingServer 1 configuredMachine sampleWorld
      = Some (Returns (outcomes.failure, m', w', [Sequential.name1_])) /\
      goalCount w' = 1%nat).
Proof.
  assert (Hwired : sequentiallyWired configuredMachine)
    by (repeat split; vm_compute; reflexivity).
  split; [exact Hwired|].
  pose (child n := FibonacciState
                     (Leaf.setOrder 5
                        (mkLeaf n n [outcomes.success] (Some outcomes.success) None
                                "/fibonacci" None None))).
  assert (H1 : getState Sequential.name1_ configuredMachine = Some (child Sequential.name1_))
    by (vm_compute; reflexivity).
  assert (H2 : getState Sequential.name2_ configuredMachine = Some (child Sequential.name2_))
    by (vm_compute; reflexivity).
  split.
  - destruct (sequential_composition (executeState succeedingServer) configuredMachine
                _ _ sampleWorld Hwired H1 H2) as [Hboth _].
    edestruct Hboth as [m' Hm']; [reflexivity | reflexivity |].
    eexists m', _. split; [exact Hm' | reflexivity].
  - destruct (sequential_composition (executeState failingServer) configuredMachine
                _ _ sampleWorld Hwired H1 H2) as [_ Hfirst].
    edestruct Hfirst as [m' Hm']; [reflexivity |].
    eexists m', _. split; [exact Hm' | reflexivity].
Defined.

Lemma constructed_sequentiallyWired (name : StateName) (w : World) :
  exists m w', createSequential name w = (Some m, w') /\
               sequentiallyWired m /\ hasFibonacciChildren m /\
               machineName m = name.
Proof.
  destruct (constructed_hasFibonacciChildren name w) as (m & w' & Hcreate & Hchildren).
  exists m, w'. split; [exact Hcreate|].
  unfold createSequential, Sequential.constructImpl in Hcreate.
  rewrite !createLeaf_spec in Hcreate. injection Hcreate as <- _.
  split; [|split; [exact Hchildren | reflexivity]].
  unfold sequentiallyWired, addState, setDefaultInitialState. simpl.
  split; [|split; [|split; reflexivity]].
  - rewrite lookup_insert_ne by done. by rewrite lookup_insert_eq.
  - by rewrite lookup_insert_eq.
Qed.

(** ** The feedback snapshot *)

(** C5, at the failing path.  [runPreExecution] resets the feedback while
    holding only the shared side of the mutex: with [getProgressImpl]
    running on another thread, the schedule "reader locks, writer locks"
    leaves both threads inside their critical sections, the writer about to
    write and the reader about to read.  The feedback callback, which takes
    the exclusive side, cannot be brought into such a configuration. *)
Theorem reset_feedback_under_shared_lock (fb : option Feedback) (message : Feedback) :
  runSchedule [1; 0]%nat (start [resetFeedbackSection; getProgressSection] fb)
  = Some (mkConfig (mkMutex 2 false) fb
            [[WriteFeedback None; Release SharedLock];
             [ReadFeedback; Release SharedLock]])
  /\ raceReachable 6 (start [resetFeedbackSection; getProgressSection] fb) = true
  /\ raceReachable 6 (start [feedbackCbSection message; getProgressSection] fb) = false.
Proof. repeat split. Qed.

(** ** The factory *)

Lemma plugins_lookup (type : StateType) :
  plugins !! type
  = if decide (type = compositeType) then Some constructSequential
    else if decide (type = leafType) then Some constructLeaf
    else None.
Proof.
  unfold plugins. rewrite lookup_insert.
  destruct (decide (compositeType = type)) as [<-|Hc].
  - by rewrite decide_True.
  - rewrite decide_False by congruence. rewrite lookup_insert.
    destruct (decide (leafType = type)) as [<-|Hl].
    + by rewrite decide_True.
    + rewrite decide_False by congruence. apply lookup_empty.
Qed.

(** C6.  Factory contract.  For a registered type, [createState(type, name)]
    yields an instance whose type and name are the requested ones; for an
    unregistered type it yields no instance. *)
Theorem factory_contract (type : StateType) (name : StateName) (w : World) :
  (is_Some (plugins !! type) ->
   exists instance w',
     createState type name w = (Some instance, w') /\
     getType instance = type /\ instanceName instance = name)
  /\
  (plugins !! type = None -> createState type name w = (None, w)).
Proof.
  pose proof (plugins_lookup type) as Hlookup. unfold createState.
  destruct (decide (type = compositeType)) as [->|Hc];
    [|destruct (decide (type = leafType)) as [->|Hl]]; rewrite !Hlookup.
  - split; [intros _|discriminate].
    destruct (constructed_sequentiallyWired name w) as (m & w' & Hcreate & _ & _ & Hname).
    exists (MachineInstance m), w'. unfold constructSequential. cbn beta iota.
    rewrite Hcreate. by repeat split.
  - split; [intros _|discriminate].
    unfold constructLeaf. cbn beta iota. rewrite createLeaf_spec.
    eexists _, _. by repeat split.
  - split; [intros [? ?]; discriminate | reflexivity].
Qed.

Lemma factory_contract_witness :
  is_Some (plugins !! compositeType) /\
  plugins !! "state_machine_example::Unknown" = None /\
  (exists instance w',
      createState compositeType "MyState" emptyWorld = (Some instance, w') /\
      getType instance = compositeType /\ instanceName instance = "MyState") /\
  createState "state_machine_example::Unknown" "MyState" emptyWorld = (None, emptyWorld).
Proof.
  assert (Hreg : is_Some (plugins !! compositeType)) by (eexists; reflexivity).
  assert (Hnot : plugins !! "state_machine_example::Unknown" = None) by reflexivity.
  split; [exact Hreg|]. split; [exact Hnot|]. split.
  - exact (proj1 (factory_contract compositeType "MyState" emptyWorld) Hreg).
  - exact (proj2 (factory_contract "state_machine_example::Unknown" "MyState" emptyWorld)
             Hnot).
Defined.


(** ** Construction *)



(** ** Typed access to the children *)


Lemma getOrder_children (m : CalculateTwoFibonacciSeriesSequentially)
    (s1 : CalculateFibonacciSeries) :
  getState Sequential.name1_ m = Some (FibonacciState s1) ->
  Sequential.getOrder m = Returns (order_ s1).
Proof. intros H1. unfold Sequential.getOrder. by rewrite H1. Qed.



(** * Further properties of the leaf *)

Lemma feedbackCb_fold_configuration (fbs : list Feedback) (s : CalculateFibonacciSeries) :
  sameConfiguration s (fold_left Leaf.feedbackCb fbs s) /\
  actionClient_ (fold_left Leaf.feedbackCb fbs s) = actionClient_ s.
Proof.
  revert s. induction fbs as [|fb fbs IH]; intros s; [by repeat split|].
  cbn [fold_left]. unfold sameConfiguration in *.
  destruct (IH (Leaf.feedbackCb s fb)) as ((-> & -> & -> & -> & -> & ->) & ->).
  by repeat split.
Qed.


Lemma goalCount_events (w : World) (new : list Event) :
  goalCount (mkWorld (rosParams w) (events w ++ new))
  = (goalCount w + length (List.filter isGoalSent new))%nat.
Proof. unfold goalCount. simpl. by rewrite List.filter_app, length_app. Qed.

Section LeafRuns.

Context {T : Type} `{ActionGoalOutcomeOps T}.
Variable server : nat -> Flight T.

Lemma mapped_canonical (result : T) : canonical (mapped result).
Proof.
  unfold canonical, mapped.
  destruct (actionGoalSucceeded result); [|destruct (actionGoalCancelled result)]; auto.
Qed.

Lemma execute_unset (s : CalculateFibonacciSeries) (w : World) :
  order_ s = None ->
  Leaf.execute server s w
  = Returns (outcomes.failure,
             setActionClient None (Leaf.runPreExecution s w).1,
             mkWorld (rosParams w)
               (events w ++
                  [ClientCreated (action_ s);
                   Reported (mkEntry (name_ s) ERROR
                     "Failed to calculate Fibonacci series: The order has not been set."
                     None);
                   ClientReleased])).
Proof.
  intros Hunset. unfold Leaf.execute, Leaf.runPreExecution, Leaf.runMidExecution.
  simpl. rewrite Hunset. simpl.
  unfold Leaf.runPostExecution, addSimpleEntry, emit. simpl.
  by rewrite <- !app_assoc.
Qed.

Lemma execute_set (s : CalculateFibonacciSeries) (w : World) (order : Z) :
  order_ s = Some order ->
  let flight := server (goalCount w) in
  exists started final,
    Leaf.execute server s w
    = Returns (mapped (terminal flight),
               setActionClient None
                 (fold_left Leaf.feedbackCb (feedbacks flight) (Leaf.runPreExecution s w).1),
               mkWorld (rosParams w)
                 (events w ++ [ClientCreated (action_ s); Reported started; GoalSent order]
                    ++ (if preemptionRequested flight then [CancelSent] else [])
                    ++ [Reported final; ClientReleased]))
    /\ entryLevel final = mappedLevel (terminal flight).
Proof.
  intros Horder flight. unfold Leaf.execute.
  destruct (Leaf.runPreExecution s w) as [s1 w1] eqn:Hpre.
  unfold Leaf.runPreExecution in Hpre. injection Hpre as Hs1 Hw1.
  assert (Horder1 : order_ s1 = Some order) by (by rewrite <- Hs1).
  assert (Hclient1 : actionClient_ s1 = Some (mkActionClient (action_ s)))
    by (by rewrite <- Hs1).
  destruct (runMidExecution_spec server s1 w1 order _ Horder1 Hclient1)
    as (started & final & Hmid & Hlevel).
  assert (Hcount : goalCount w1 = goalCount w) by (rewrite <- Hw1; by rewrite goalCount_emit).
  rewrite Hcount in Hmid, Hlevel. fold flight in Hmid, Hlevel.
  rewrite Hmid. exists started, final. split; [|exact Hlevel].
  rewrite <- Hw1. unfold Leaf.runPostExecution, emit. simpl.
  destruct (preemptionRequested flight); simpl; rewrite <- ?app_assoc; reflexivity.
Qed.

(** Whatever the leaf, an execution returns, with the client released and
    the configuration as before. *)
Lemma execute_returns (s : CalculateFibonacciSeries) (w : World) :
  exists outcome s' w',
    Leaf.execute server s w = Returns (outcome, s', w') /\
    canonical outcome /\ sameConfiguration s s' /\ actionClient_ s' = None /\
    rosParams w' = rosParams w /\
    goalCount w' = (goalCount w + match order_ s with Some _ => 1 | None => 0 end)%nat.
Proof.
  destruct (order_ s) as [order|] eqn:Horder.
  - destruct (execute_set s w order Horder) as (started & final & Hexec & _).
    eexists _, _, _. split; [exact Hexec|].
    split; [apply mapped_canonical|].
    destruct (feedbackCb_fold_configuration
                (feedbacks (server (goalCount w))) (Leaf.runPreExecution s w).1)
      as ((Hn & Hnn & Ho & Hno & Ha & Hor) & _).
    split; [|split; [reflexivity|split; [reflexivity|]]].
    + unfold sameConfiguration, setActionClient.
      cbn [name_ nestedName_ outcomes_ nominalOutcome_ action_ order_].
      rewrite Hn, Hnn, Ho, Hno, Ha, Hor. by repeat split.
    + rewrite goalCount_events. f_equal. rewrite !List.filter_app. simpl.
      by destruct (preemptionRequested (server (goalCount w))).
  - rewrite (execute_unset s w Horder). eexists _, _, _. split; [reflexivity|].
    split; [unfold canonical; auto|].
    split; [by repeat split|]. split; [reflexivity|]. split; [reflexivity|].
    rewrite goalCount_events. simpl. lia.
Qed.


(** X2.  An execution never changes the configuration of the leaf and
    leaves no action client behind, whatever its outcome: name, declared
    outcomes, action and order are as before, so the saved settings and the
    inconsistencies are as before too. *)
Theorem execute_keeps_configuration (s s' : CalculateFibonacciSeries) (w w' : World)
    (outcome : Outcome)
    (Hexec : Leaf.execute server s w = Returns (outcome, s', w')) :
  sameConfiguration s s' /\ actionClient_ s' = None /\
  Leaf.getOrder s' = Leaf.getOrder s /\
  Leaf.saveSettings s' = Leaf.saveSettings s /\
  Leaf.getInconsistencies s' = Leaf.getInconsistencies s /\
  rosParams w' = rosParams w.
Proof.
  destruct (execute_returns s w)
    as (o & s2 & w2 & Hexec' & _ & Hsame & Hclient & Hparams & _).
  rewrite Hexec' in Hexec. injection Hexec as _ <- <-.
  destruct Hsame as (Hn & Hnn & Ho & Hno & Ha & Hor).
  split; [by repeat split|]. split; [exact Hclient|].
  unfold Leaf.getOrder, Leaf.saveSettings, Leaf.saveSettingsImpl,
    Leaf.getInconsistencies, Leaf.getInconsistenciesImpl, Leaf.unsetMessage.
  rewrite Hor, Hnn. by repeat split.
Qed.


(** X4.  Validation guards execution.  Every execution returns (it never
    touches a null action client); when [getInconsistencies()] is empty it
    sends exactly one goal, otherwise it sends none and fails. *)
Theorem validation_guards_execution (s : CalculateFibonacciSeries) (w : World) :
  exists outcome s' w',
    Leaf.execute server s w = Returns (outcome, s', w') /\
    (Leaf.getInconsistencies s = [] -> goalCount w' = S (goalCount w)) /\
    (Leaf.getInconsistencies s <> [] ->
     outcome = outcomes.failure /\ goalCount w' = goalCount w).
Proof.
  destruct (order_ s) as [order|] eqn:Horder.
  - destruct (execute_returns s w) as (o & s' & w' & Hexec & _ & _ & _ & _ & Hcount).
    rewrite Horder in Hcount. exists o, s', w'. split; [exact Hexec|].
    unfold Leaf.getInconsistencies, Leaf.getInconsistenciesImpl. rewrite Horder.
    split; [intros _; lia | done].
  - eexists _, _, _. split; [exact (execute_unset s w Horder)|].
    unfold Leaf.getInconsistencies, Leaf.getInconsistenciesImpl. rewrite Horder.
    split; [discriminate|]. intros _. split; [reflexivity|].
    rewrite goalCount_events. simpl. lia.
Qed.

(** X5.  A preemption request reaches the action client only while an
    execution is in flight: on a leaf fresh from the factory and on a leaf
    whose execution has returned it does nothing, between pre- and
    post-execution it cancels the goal. *)
Theorem preemption_outside_execution (s s' : CalculateFibonacciSeries)
    (w w' w0 : World) (outcome : Outcome)
    (Hexec : Leaf.execute server s w = Returns (outcome, s', w')) :
  Leaf.onPreemptionRequest s' w0 = w0
  /\ Leaf.onPreemptionRequest (Leaf.runPreExecution s w).1 w0 = emit CancelSent w0
  /\ (forall name w1 s1 w1',
        createLeaf name w1 = (Some s1, w1') -> Leaf.onPreemptionRequest s1 w0 = w0).
Proof.
  destruct (execute_returns s w) as (o & s2 & w2 & Hexec' & _ & _ & Hclient & _).
  rewrite Hexec' in Hexec. assert (Hs' : s' = s2) by congruence. subst s'.
  split; [|split].
  - unfold Leaf.onPreemptionRequest. by rewrite Hclient.
  - reflexivity.
  - intros name w1 s1 w1' Hcreate. rewrite createLeaf_spec in Hcreate.
    injection Hcreate as <- _. reflexivity.
Qed.

(** X6.  Every outcome an execution of the leaf returns is success,
    preemption or failure, and both transition tables of the composite have
    an entry for it. *)
Theorem leaf_outcomes_covered (s s' : CalculateFibonacciSeries) (w w' : World)
    (outcome : Outcome)
    (Hexec : Leaf.execute server s w = Returns (outcome, s', w')) :
  canonical outcome
  /\ is_Some ((list_to_map Sequential.table1 : gmap string Target) !! outcome)
  /\ is_Some ((list_to_map Sequential.table2 : gmap string Target) !! outcome).
Proof.
  destruct (execute_returns s w) as (o & s2 & w2 & Hexec' & Hcanonical & _).
  rewrite Hexec' in Hexec. assert (Ho : outcome = o) by congruence. subst o.
  split; [exact Hcanonical|].
  destruct Hcanonical as [-> | [-> | ->]]; split; eexists; reflexivity.
Qed.

(** X8.  The example executable exits with [EXIT_SUCCESS] whatever the
    outcome of the execution, also when the final report entry is an error:
    it reads the action parameter, creates the client, sends one goal of
    order 5 and releases the client. *)
Theorem main_exits_successfully (w : World) :
  let flight := server (goalCount w) in
  exists w' started final,
    main server w = Returns (EXIT_SUCCESS, w') /\
    events w' = events w ++
                  [ParamRead Leaf.actionParamKey;
                   ClientCreated (default "/fibonacci"
                                    (rosParams w !! Leaf.actionParamKey));
                   Reported started; GoalSent 5]
                  ++ (if preemptionRequested flight then [CancelSent] else [])
                  ++ [Reported final; ClientReleased] /\
    entryLevel final = mappedLevel (terminal flight).
Proof.
  intros flight. unfold main. rewrite createLeaf_spec.
  set (leaf := Leaf.setOrder 5 _). set (w0 := emit _ w).
  change (Leaf.getInconsistencies leaf) with (@nil string).
  destruct (execute_set leaf w0 5 eq_refl) as (started & final & Hexec & Hlevel).
  assert (Hcount : goalCount w0 = goalCount w) by (unfold w0; by rewrite goalCount_emit).
  rewrite Hcount in Hexec, Hlevel. fold flight in Hexec, Hlevel.
  rewrite Hexec. eexists _, started, final. split; [reflexivity|].
  split; [|exact Hlevel]. simpl. by rewrite <- !app_assoc.
Qed.

End LeafRuns.

(** X7.  [loadSettings] of the leaf changes nothing but the order and
    reports success whenever it returns; settings without an order
    parameter leave the leaf as it is, and an order that was set stays
    set. *)
Theorem loadSettings_frame (settings : Settings) (s s' : CalculateFibonacciSeries)
    (ok : bool)
    (Hload : Leaf.loadSettings settings s = Returns (ok, s')) :
  ok = true
  /\ sameButOrder s s'
  /\ (parameterIsRegistered "order" settings = false -> s' = s)
  /\ (is_Some (order_ s) -> is_Some (order_ s')).
Proof.
  unfold Leaf.loadSettings, Leaf.loadSettingsImpl in Hload.
  destruct (parameterIsRegistered "order" settings).
  - destruct (getParameter "order" settings) as [p| |]; simpl in Hload; try discriminate.
    destruct (as_int (paramValue p)) as [z| |]; simpl in Hload; try discriminate.
    injection Hload as <- <-.
    split; [reflexivity|]. split; [by repeat split|]. split; [discriminate|].
    intros _. by eexists.
  - injection Hload as <- <-.
    split; [reflexivity|]. split; [by repeat split|]. by split.
Qed.


Lemma execute_keeps_configuration_witness :
  exists outcome s' w',
    Leaf.execute (always (preempted cancelled)) staleLeaf emptyWorld
    = Returns (outcome, s', w') /\
    sameConfiguration staleLeaf s' /\ actionClient_ s' = None /\
    Leaf.getOrder s' = Some 7 /\
    Leaf.saveSettings s' = [mkParameter "order" "int" (IntValue 7)] /\
    Leaf.getInconsistencies s' = [] /\
    rosParams w' = ∅.
Proof.
  eexists _, _, _. split; [reflexivity|].
  apply (execute_keeps_configuration (always (preempted cancelled))
           staleLeaf _ emptyWorld _ outcomes.preemption).
  reflexivity.
Defined.


Lemma preemption_outside_execution_witness :
  exists outcome s' w',
    Leaf.execute succeedingServer configuredLeaf emptyWorld = Returns (outcome, s', w') /\
    Leaf.onPreemptionRequest s' emptyWorld = emptyWorld /\
    Leaf.onPreemptionRequest runningLeaf emptyWorld = emit CancelSent emptyWorld /\
    (forall name w1 s1 w1',
        createLeaf name w1 = (Some s1, w1') ->
        Leaf.onPreemptionRequest s1 emptyWorld = emptyWorld).
Proof.
  eexists _, _, _. split; [reflexivity|].
  exact (preemption_outside_execution succeedingServer configuredLeaf _ emptyWorld _
           emptyWorld outcomes.success eq_refl).
Defined.

Lemma leaf_outcomes_covered_witness :
  exists outcome s' w',
    Leaf.execute (always (quiet timeout [])) configuredLeaf emptyWorld
    = Returns (outcome, s', w') /\
    outcome = outcomes.failure /\
    canonical outcome /\
    is_Some ((list_to_map Sequential.table1 : gmap string Target) !! outcome) /\
    is_Some ((list_to_map Sequential.table2 : gmap string Target) !! outcome).
Proof.
  eexists _, _, _. split; [reflexivity|]. split; [reflexivity|].
  eapply leaf_outcomes_covered
    with (server := always (quiet timeout [])) (s := configuredLeaf) (w := emptyWorld).
  reflexivity.
Defined.

Lemma loadSettings_frame_witness :
  Leaf.loadSettings otherSettings staleLeaf = Returns (true, staleLeaf) /\
  sameButOrder staleLeaf staleLeaf /\
  (parameterIsRegistered "order" otherSettings = false -> staleLeaf = staleLeaf) /\
  (is_Some (order_ staleLeaf) -> is_Some (order_ staleLeaf)).
Proof.
  split; [reflexivity|].
  exact (proj2 (loadSettings_frame otherSettings staleLeaf staleLeaf true eq_refl)).
Defined.

(** * Further properties of the composite *)

Lemma table1_stops (o : Outcome) :
  o = outcomes.preemption \/ o = outcomes.failure ->
  (list_to_map Sequential.table1 : gmap string Target) !! o = Some (ToOutcome o).
Proof. by intros [-> | ->]. Qed.

Lemma table2_stops (o : Outcome) :
  canonical o ->
  (list_to_map Sequential.table2 : gmap string Target) !! o = Some (ToOutcome o).
Proof. by intros [-> | [-> | ->]]. Qed.

Section CompositionPaths.

Context {Child : Type}.
Variable executeChild : Child -> World -> Effect (Outcome * Child * World).

Lemma sequential_first_stops (m : StateMachine Child) (child1 child1' : Child)
    (w w1 : World) (o1 : Outcome) (fuel : nat) :
  sequentiallyWired m ->
  getState Sequential.name1_ m = Some child1 ->
  executeChild child1 w = Returns (o1, child1', w1) ->
  o1 = outcomes.preemption \/ o1 = outcomes.failure ->
  executeMachine executeChild (S fuel) m w
  = Some (Returns (o1,
                   storeState Sequential.name1_ child1'
                     (setActiveState Sequential.name1_ m),
                   w1, [Sequential.name1_])).
Proof.
  intros (Ht1 & _ & Hdefault & Hrestart) Hchild1 Hexec1 Ho1.
  unfold executeMachine, initialState. rewrite Hrestart, Hdefault.
  rewrite (run_child _ _ _ _ _ _ _ _ _ _ Hchild1 Hexec1).
  unfold transition. rewrite Ht1. cbn [mbind option_bind].
  by rewrite (table1_stops o1 Ho1).
Qed.

Lemma sequential_second_decides (m : StateMachine Child)
    (child1 child1' child2 child2' : Child) (w w1 w2 : World) (o2 : Outcome)
    (fuel : nat) :
  sequentiallyWired m ->
  getState Sequential.name1_ m = Some child1 ->
  getState Sequential.name2_ m = Some child2 ->
  executeChild child1 w = Returns (outcomes.success, child1', w1) ->
  executeChild child2 w1 = Returns (o2, child2', w2) ->
  canonical o2 ->
  executeMachine executeChild (S (S fuel)) m w
  = Some (Returns (o2,
                   storeState Sequential.name2_ child2'
                     (setActiveState Sequential.name2_
                        (storeState Sequential.name1_ child1'
                           (setActiveState Sequential.name1_ m))),
                   w2, [Sequential.name1_; Sequential.name2_])).
Proof.
  intros (Ht1 & Ht2 & Hdefault & Hrestart) Hchild1 Hchild2 Hexec1 Hexec2 Ho2.
  unfold executeMachine, initialState. rewrite Hrestart, Hdefault.
  rewrite (run_child _ _ _ _ _ _ _ _ _ _ Hchild1 Hexec1).
  unfold transition at 1. rewrite Ht1. cbn [mbind option_bind].
  rewrite table1_success. cbn zeta.
  set (m1 := storeState _ _ _).
  assert (Hchild2' : getState Sequential.name2_ m1 = Some child2).
  { unfold m1, getState, storeState. cbn [states].
    rewrite lookup_insert_ne by done. exact Hchild2. }
  rewrite (run_child _ _ _ _ _ _ _ _ _ _ Hchild2' Hexec2).
  unfold transition. change (transitions m1) with (transitions m).
  rewrite Ht2. cbn [mbind option_bind]. by rewrite (table2_stops o2 Ho2).
Qed.

(** X9.  The remaining rows of the transition tables of [constructImpl].
    When the first child returns preemption or failure, [execute()] returns
    that outcome and the second child is not run; when the first child
    returns success, [execute()] returns whatever the second child returns
    (success, preemption or failure), both children having run once. *)
Theorem sequential_outcome_table (m : StateMachine Child) (child1 child2 : Child)
    (w : World)
    (Hwired : sequentiallyWired m)
    (Hchild1 : getState Sequential.name1_ m = Some child1)
    (Hchild2 : getState Sequential.name2_ m = Some child2) :
  (forall o1 child1' w1,
      executeChild child1 w = Returns (o1, child1', w1) ->
      o1 = outcomes.preemption \/ o1 = outcomes.failure ->
      forall fuel, exists m',
        executeMachine executeChild (S fuel) m w
        = Some (Returns (o1, m', w1, [Sequential.name1_])))
  /\
  (forall child1' w1 o2 child2' w2,
      executeChild child1 w = Returns (outcomes.success, child1', w1) ->
      executeChild child2 w1 = Returns (o2, child2', w2) ->
      canonical o2 ->
      forall fuel, exists m',
        executeMachine executeChild (S (S fuel)) m w
        = Some (Returns (o2, m', w2, [Sequential.name1_; Sequential.name2_]))).
Proof.
  split.
  - intros o1 child1' w1 Hexec1 Ho1 fuel. eexists.
    by apply (sequential_first_stops m child1 child1').
  - intros child1' w1 o2 child2' w2 Hexec1 Hexec2 Ho2 fuel. eexists.
    by apply (sequential_second_decides m child1 child1' child2 child2' w w1).
Qed.

(** The engine's loop changes the children and the active child only. *)
Lemma run_sameWiring (fuel : nat) (m m' : StateMachine Child) (current : StateName)
    (w w' : World) (ran ran' : list StateName) (outcome : Outcome) :
  run executeChild fuel m current w ran = Some (Returns (outcome, m', w', ran')) ->
  sameWiring m m' /\ dom (states m') = dom (states m) /\
  exists more, ran' = ran ++ more.
Proof.
  revert m current w ran. induction fuel as [|fuel IH]; intros m current w ran; [done|].
  cbn [run]. change (getState current (setActiveState current m)) with (getState current m).
  destruct (getState current m) as [child|] eqn:Hchild.
  - destruct (executeChild child w) as [[[o child'] w1]| |]; [|done..].
    set (m1 := storeState current child' (setActiveState current m)).
    assert (Hm1 : sameWiring m m1 /\ dom (states m1) = dom (states m)).
    { split; [by repeat split|]. unfold m1, storeState. cbn [states setActiveState].
      rewrite dom_insert_L. unfold getState in Hchild.
      apply elem_of_dom_2 in Hchild.
      apply subseteq_union_1_L. by apply singleton_subseteq_l. }
    destruct Hm1 as [(Hn & Ho & Hr & Ht & Hd) Hdom].
    destruct (transition current o m1) as [[next|terminalOutcome]|].
    + intros Hrun. apply IH in Hrun as ((Hn' & Ho' & Hr' & Ht' & Hd') & Hdom' & more & ->).
      split; [unfold sameWiring; by rewrite Hn', Ho', Hr', Ht', Hd'|].
      split; [by rewrite Hdom'|]. exists (current :: more). by rewrite <- app_assoc.
    + intros [= <- <- <- <-]. split; [by repeat split|]. split; [done|]. by eexists.
    + intros [= <- <- <- <-]. split; [by repeat split|]. split; [done|]. by eexists.
  - intros [= <- <- <- <-]. split; [by repeat split|]. split; [done|].
    exists []. by rewrite app_nil_r.
Qed.

(** X10.  An execution of a composite leaves its wiring untouched and
    neither adds nor removes a child; a composite wired by [constructImpl]
    (restart on execution, first child as default initial state) therefore
    starts its next execution at the first child again, wherever the last
    one ended. *)
Theorem restart_on_execution (fuel : nat) (m m' : StateMachine Child) (w w' : World)
    (ran : list StateName) (outcome : Outcome)
    (Hwired : sequentiallyWired m)
    (Hexec : executeMachine executeChild fuel m w
             = Some (Returns (outcome, m', w', ran))) :
  sameWiring m m' /\ dom (states m') = dom (states m) /\
  sequentiallyWired m' /\ initialState m' = Some Sequential.name1_.
Proof.
  destruct Hwired as (Ht1 & Ht2 & Hdefault & Hrestart).
  unfold executeMachine, initialState in Hexec. rewrite Hrestart, Hdefault in Hexec.
  apply run_sameWiring in Hexec as ((Hn & Ho & Hr & Ht & Hd) & Hdom & _).
  split; [by repeat split|]. split; [exact Hdom|].
  split.
  - unfold sequentiallyWired. rewrite Ht, Hd, Hr. by repeat split.
  - unfold initialState. by rewrite Hr, Hrestart, Hd.
Qed.

End CompositionPaths.

Lemma dynamic_cast_Some (p : option StateBase) (s : CalculateFibonacciSeries) :
  dynamic_cast p = Some s -> p = Some (FibonacciState s).
Proof. destruct p as [[s0|? ? ?]|]; simpl; congruence. Qed.

(** X11.  A composite whose first child has no order saves no parameter at
    all (where the leaf saves an order of 0), and loading such settings
    changes nothing in the composite that loads them. *)
Theorem unconfigured_composite_saves_nothing
    (m m2 : CalculateTwoFibonacciSeriesSequentially) (s1 : CalculateFibonacciSeries)
    (Hchild1 : getState Sequential.name1_ m = Some (FibonacciState s1))
    (Hunset : order_ s1 = None) :
  Sequential.saveSettings m = Returns []
  /\ Sequential.loadSettings [] m2 = Returns (true, m2)
  /\ Leaf.saveSettings s1 = [mkParameter "order" "int" (IntValue 0)].
Proof.
  split; [|split].
  - unfold Sequential.saveSettings, Sequential.saveSettingsImpl.
    rewrite (getOrder_children m s1 Hchild1). by rewrite Hunset.
  - reflexivity.
  - unfold Leaf.saveSettings, Leaf.saveSettingsImpl. by rewrite Hunset.
Qed.

Lemma unconfigured_composite_saves_nothing_witness :
  getState Sequential.name1_ sampleMachine
  = Some (FibonacciState (sampleChild Sequential.name1_))
  /\ Sequential.saveSettings sampleMachine = Returns []
  /\ Sequential.loadSettings [] configuredMachine = Returns (true, configuredMachine)
  /\ Leaf.saveSettings (sampleChild Sequential.name1_)
     = [mkParameter "order" "int" (IntValue 0)].
Proof.
  split; [reflexivity|].
  exact (unconfigured_composite_saves_nothing sampleMachine configuredMachine
           (sampleChild Sequential.name1_) eq_refl eq_refl).
Defined.

(** X12.  [setOrder] of the composite, when it returns, has changed the
    order of its two Fibonacci children and nothing else: the wiring, the
    active child and every other child are as before, and the two children
    differ from what they were in their order only. *)
Theorem composite_setOrder_frame (order : Z)
    (m m' : CalculateTwoFibonacciSeriesSequentially)
    (Hset : Sequential.setOrder order m = Returns m') :
  sameWiring m m' /\ activeState m' = activeState m
  /\ (forall n, n <> Sequential.name1_ -> n <> Sequential.name2_ ->
                getState n m' = getState n m)
  /\ exists s1 s2,
       getState Sequential.name1_ m = Some (FibonacciState s1) /\
       getState Sequential.name2_ m = Some (FibonacciState s2) /\
       getState Sequential.name1_ m' = Some (FibonacciState (Leaf.setOrder order s1)) /\
       getState Sequential.name2_ m' = Some (FibonacciState (Leaf.setOrder order s2)) /\
       sameButOrder s1 (Leaf.setOrder order s1) /\
       sameButOrder s2 (Leaf.setOrder order s2).
Proof.
  destruct (dynamic_cast (getState Sequential.name1_ m)) as [s1|] eqn:H1;
    [|unfold Sequential.setOrder in Hset; by rewrite H1 in Hset].
  destruct (dynamic_cast (getState Sequential.name2_ m)) as [s2|] eqn:H2.
  - apply dynamic_cast_Some in H1, H2.
    rewrite (setOrder_children order m s1 s2 H1 H2) in Hset. injection Hset as <-.
    split; [by repeat split|]. split; [reflexivity|]. split.
    + intros n Hn1 Hn2. unfold getState, storeState. cbn [states].
      by rewrite !lookup_insert_ne.
    + exists s1, s2. rewrite getState_setOrder_1, getState_setOrder_2.
      by repeat split.
  - apply dynamic_cast_Some in H1.
    unfold Sequential.setOrder in Hset. rewrite H1 in Hset. simpl in Hset.
    unfold getState in Hset, H2. cbn [states storeState] in Hset.
    rewrite lookup_insert_ne in Hset by done. by rewrite H2 in Hset.
Qed.

Lemma composite_setOrder_frame_witness :
  exists m',
    Sequential.setOrder 5 disagreeingMachine = Returns m' /\
    sameWiring disagreeingMachine m' /\
    Sequential.getOrder disagreeingMachine = Returns (Some 3) /\
    Sequential.getOrder m' = Returns (Some 5).
Proof.
  eexists. split; [reflexivity|].
  split; [|split; reflexivity].
  eapply composite_setOrder_frame with (order := 5) (m := disagreeingMachine).
  reflexivity.
Defined.

(** X13.  What a composite saves is the order of its first child only: a
    composite that loads the settings saved by a composite whose first child
    has order [a] ends with order [a] in both of its children, whatever the
    second child of the saving composite holds. *)
Theorem composite_saves_first_child
    (m m2 : CalculateTwoFibonacciSeriesSequentially)
    (s1 t1 t2 : CalculateFibonacciSeries) (a : Z)
    (Hchild1 : getState Sequential.name1_ m = Some (FibonacciState s1))
    (Horder : order_ s1 = Some a)
    (Htarget1 : getState Sequential.name1_ m2 = Some (FibonacciState t1))
    (Htarget2 : getState Sequential.name2_ m2 = Some (FibonacciState t2)) :
  exists m2',
    Sequential.saveSettings m = Returns [mkParameter "order" "int" (IntValue a)] /\
    Sequential.loadSettings [mkParameter "order" "int" (IntValue a)] m2
    = Returns (true, m2') /\
    getState Sequential.name1_ m2' = Some (FibonacciState (Leaf.setOrder a t1)) /\
    getState Sequential.name2_ m2' = Some (FibonacciState (Leaf.setOrder a t2)) /\
    Sequential.getOrder m2' = Returns (Some a).
Proof.
  eexists. split.
  { unfold Sequential.saveSettings, Sequential.saveSettingsImpl.
    rewrite (getOrder_children m s1 Hchild1). by rewrite Horder. }
  split.
  { unfold Sequential.loadSettings, Sequential.loadSettingsImpl. simpl.
    by rewrite (setOrder_children a m2 t1 t2 Htarget1 Htarget2). }
  rewrite getState_setOrder_1, getState_setOrder_2. split; [done|]. split; [done|].
  unfold Sequential.getOrder. by rewrite getState_setOrder_1.
Qed.

Lemma composite_saves_first_child_witness :
  getState Sequential.name2_ disagreeingMachine
  = Some (FibonacciState (Leaf.setOrder 8 (sampleChild Sequential.name2_)))
  /\ exists m2',
    Sequential.saveSettings disagreeingMachine
    = Returns [mkParameter "order" "int" (IntValue 3)] /\
    Sequential.loadSettings [mkParameter "order" "int" (IntValue 3)] sampleMachine
    = Returns (true, m2') /\
    getState Sequential.name1_ m2'
    = Some (FibonacciState (Leaf.setOrder 3 (sampleChild Sequential.name1_))) /\
    getState Sequential.name2_ m2'
    = Some (FibonacciState (Leaf.setOrder 3 (sampleChild Sequential.name2_))) /\
    Sequential.getOrder m2' = Returns (Some 3).
Proof.
  split; [reflexivity|].
  exact (composite_saves_first_child disagreeingMachine sampleMachine
           (Leaf.setOrder 3 (sampleChild Sequential.name1_))
           (sampleChild Sequential.name1_) (sampleChild Sequential.name2_) 3
           eq_refl eq_refl eq_refl eq_refl).
Defined.

Section CompositeRuns.

Context {T : Type} `{ActionGoalOutcomeOps T}.
Variable server : nat -> Flight T.



(** X15.  A composite whose first child has no order (as fresh from the
    factory) fails at once: only the first child runs, no goal is sent, and
    the second child is left alone. *)
Theorem unconfigured_composite_execution
    (m : CalculateTwoFibonacciSeriesSequentially) (s1 : CalculateFibonacciSeries)
    (w : World) (fuel : nat)
    (Hwired : sequentiallyWired m)
    (Hchild1 : getState Sequential.name1_ m = Some (FibonacciState s1))
    (Hunset : order_ s1 = None) :
  exists m' w',
    Sequential.execute server (S fuel) m w
    = Some (Returns (outcomes.failure, m', w', [Sequential.name1_])) /\
    goalCount w' = goalCount w /\
    getState Sequential.name2_ m' = getState Sequential.name2_ m.
Proof.
  unfold Sequential.execute.
  assert (Hexec1 : executeState server (FibonacciState s1) w
                   = Returns (outcomes.failure,
                              FibonacciState (setActionClient None (Leaf.runPreExecution s1 w).1),
                              mkWorld (rosParams w)
                                (events w ++
                                   [ClientCreated (action_ s1);
                                    Reported (mkEntry (name_ s1) ERROR
                                      "Failed to calculate Fibonacci series: The order has not been set."
                                      None);
                                    ClientReleased]))).
  { unfold executeState. by rewrite (execute_unset server s1 w Hunset). }
  eexists _, _. split.
  - eapply (sequential_first_stops (executeState server));
      [exact Hwired | exact Hchild1 | exact Hexec1 | by right].
  - split.
    + rewrite goalCount_events. simpl. lia.
    + unfold getState, storeState. cbn [states setActiveState].
      by rewrite lookup_insert_ne.
Qed.

End CompositeRuns.


Lemma unconfigured_composite_execution_witness :
  sequentiallyWired sampleMachine /\
  exists m' w',
    Sequential.execute succeedingServer 1 sampleMachine sampleWorld
    = Some (Returns (outcomes.failure, m', w', [Sequential.name1_])) /\
    goalCount w' = 0%nat /\
    getState Sequential.name2_ m'
    = Some (FibonacciState (sampleChild Sequential.name2_)).
Proof.
  assert (Hwired : sequentiallyWired sampleMachine)
    by (repeat split; vm_compute; reflexivity).
  split; [exact Hwired|].
  exact (unconfigured_composite_execution succeedingServer sampleMachine
           (sampleChild Sequential.name1_) sampleWorld 0 Hwired eq_refl eq_refl).
Defined.

Lemma sequential_outcome_table_witness :
  sequentiallyWired configuredMachine /\
  (exists m' w',
      executeMachine (executeState cancellingServer) 1 configuredMachine sampleWorld
      = Some (Returns (outcomes.preemption, m', w', [Sequential.name1_]))) /\
  (exists m' w',
      executeMachine (executeState secondFailsServer) 2 configuredMachine sampleWorld
      = Some (Returns (outcomes.failure, m', w',
                       [Sequential.name1_; Sequential.name2_]))).
Proof.
  assert (Hwired : sequentiallyWired configuredMachine)
    by (repeat split; vm_compute; reflexivity).
  split; [exact Hwired|].
  assert (H1 : getState Sequential.name1_ configuredMachine
               = Some (FibonacciState (Leaf.setOrder 5 (sampleChild Sequential.name1_))))
    by (vm_compute; reflexivity).
  assert (H2 : getState Sequential.name2_ configuredMachine
               = Some (FibonacciState (Leaf.setOrder 5 (sampleChild Sequential.name2_))))
    by (vm_compute; reflexivity).
  split.
  - destruct (sequential_outcome_table (executeState cancellingServer) configuredMachine
                _ _ sampleWorld Hwired H1 H2) as [Hstops _].
    edestruct Hstops as [m' Hm']; [reflexivity | by left |].
    eexists m', _. exact Hm'.
  - destruct (sequential_outcome_table (executeState secondFailsServer) configuredMachine
                _ _ sampleWorld Hwired H1 H2) as [_ Hsecond].
    edestruct Hsecond as [m' Hm']; [reflexivity | reflexivity | by right; right |].
    eexists m', _. exact Hm'.
Defined.

Lemma restart_on_execution_witness :
  sequentiallyWired configuredMachine /\
  exists outcome m' w' ran,
    Sequential.execute succeedingServer 2 configuredMachine sampleWorld
    = Some (Returns (outcome, m', w', ran)) /\
    activeState m' = Some Sequential.name2_ /\
    sameWiring configuredMachine m' /\
    dom (states m') = dom (states configuredMachine) /\
    sequentiallyWired m' /\ initialState m' = Some Sequential.name1_.
Proof.
  assert (Hwired : sequentiallyWired configuredMachine)
    by (repeat split; vm_compute; reflexivity).
  split; [exact Hwired|].
  eexists _, _, _, _. split; [vm_compute; reflexivity|]. split; [reflexivity|].
  eapply restart_on_execution
    with (executeChild := executeState succeedingServer) (fuel := 2%nat)
         (w := sampleWorld);
    [exact Hwired | vm_compute; reflexivity].
Defined.

(** * The report entries of a mid-execution *)

(** X16.  The entry a mid-execution reports last.  It is emitted by the
    leaf itself at the level that goes with the outcome; only the entry of a
    succeeded goal carries a value, the last element of the result sequence,
    or 0 when that sequence is empty. *)
Theorem final_report_entry {T : Type} `{ActionGoalOutcomeOps T}
    (server : nat -> Flight T) (s : CalculateFibonacciSeries) (w : World)
    (order : Z) (client : ActionClient)
    (Horder : order_ s = Some order) (Hclient : actionClient_ s = Some client) :
  let flight := server (goalCount w) in
  exists outcome s' w' message,
    Leaf.runMidExecution server s w = Returns (outcome, s', w') /\
    last (events w')
    = Some (Reported (mkEntry (name_ s) (mappedLevel (terminal flight)) message
                        (if actionGoalSucceeded (terminal flight)
                         then Some (default 0 (last (resultSequence flight)))
                         else None))).
Proof.
  intros flight.
  destruct (feedbackCb_frame (feedbacks flight) s) as (Hname & _ & Hc & _).
  unfold Leaf.runMidExecution, Leaf.actionExecute.
  rewrite Horder, Hclient. cbn [deref bindE].
  rewrite goalCount_addSimpleEntry. fold flight.
  unfold mappedLevel, Leaf.lastOrZero.
  destruct (actionGoalSucceeded (terminal flight));
    [|destruct (actionGoalCancelled (terminal flight))];
    eexists _, _, _, _; (split; [reflexivity|]);
    unfold addSimpleEntry, emit; cbn [events]; rewrite last_snoc, Hname; reflexivity.
Qed.

Lemma final_report_entry_witness :
  order_ runningLeaf = Some 5 /\
  actionClient_ runningLeaf = Some (mkActionClient "/fibonacci") /\
  exists outcome s' w' message,
    Leaf.runMidExecution (always (quiet succeeded [])) runningLeaf emptyWorld
    = Returns (outcome, s', w') /\
    last (events w') = Some (Reported (mkEntry "MyState" INFO message (Some 0))).
Proof.
  split; [reflexivity|]. split; [reflexivity|].
  exact (final_report_entry (always (quiet succeeded [])) runningLeaf emptyWorld 5
           (mkActionClient "/fibonacci") eq_refl eq_refl).
Defined.
